(** * Prozen (auto zen mode): a shallow embedding of [src/main.ts]

    The plugin is one class with a settings object, one boolean
    ([isInZenMode]) and four handlers the host calls.  Everything else is the
    host: the workspace, the vault configuration, the DOM and its fullscreen
    machinery.  The embedding keeps the two apart:

    - [JS] holds the few pieces of the language the plugin relies on
      (truthiness, string concatenation, [Object.assign], [trim]);
    - [World] is the plugin's fields together with the host state its code
      reads or writes;
    - the plugin's methods are programs of a state monad with exceptions, one
      line of model per line of source;
    - the host's own moves (completing a fullscreen request, delivering
      [fullscreenchange]) are separate transitions. *)

From stdpp Require Import base option list gmap strings.

Open Scope string_scope.

(* [set_solver] clears hypotheses by name, some of which are gone by then. *)
Set Warnings "-clear-no-such-hyp".

(** ** The JavaScript fragment *)

Module JS.

(** A number is kept as the decimal rendering [Number::toString] gives it
    ("2", "0.75", "NaN"): the plugin stores numbers, tests them for
    truthiness and appends a unit to them, and does nothing else. *)
Inductive value :=
| VUndefined
| VNull
| VBool (b : bool)
| VNum (repr : string)
| VStr (s : string).

#[global] Instance value_eq_dec : EqDecision value.
Proof. solve_decision. Defined.

(** ToBoolean *)
Definition truthy (v : value) : bool :=
  match v with
  | VUndefined | VNull => false
  | VBool b => b
  | VNum r => negb (bool_decide (r = "0") || bool_decide (r = "NaN"))
  | VStr s => negb (bool_decide (s = ""))
  end.

(** ToString *)
Definition to_string (v : value) : string :=
  match v with
  | VUndefined => "undefined"
  | VNull => "null"
  | VBool true => "true"
  | VBool false => "false"
  | VNum r => r
  | VStr s => s
  end.

(** [v + 'lit']: with a string operand, [+] concatenates. *)
Definition add_str (v : value) (lit : string) : string :=
  to_string v +:+ lit.

(** An object with primitive fields.  Reading a field that is not there
    gives [undefined]. *)
Definition get (o : gmap string value) (k : string) : value :=
  default VUndefined (o !! k).

(** [Object.assign(target, source)]: every own field of [source] is
    written to [target]; a [null] source is skipped. *)
Definition assign (target : gmap string value)
           (source : option (gmap string value)) : gmap string value :=
  match source with
  | None => target
  | Some src => src ∪ target
  end.

(** What [JSON.stringify] followed by [JSON.parse] leaves of a field. *)
Definition json_field (v : value) : option value :=
  match v with
  | VUndefined => None
  | VNum r =>
      if bool_decide (r = "NaN") || bool_decide (r = "Infinity")
         || bool_decide (r = "-Infinity")
      then Some VNull else Some v
  | _ => Some v
  end.

Definition json_roundtrip (o : gmap string value) : gmap string value :=
  omap json_field o.

(** Truthiness of a reference that is an object or [undefined]. *)
Definition defined {A} (o : option A) : bool :=
  match o with Some _ => true | None => false end.

(** Strings the plugin inspects character by character are lists of
    UTF-16 code units. *)
Definition text := list N.

(** WhiteSpace (TAB, VT, FF, ZWNBSP and the Space_Separator category). *)
Definition is_white_space (c : N) : bool :=
  ((c =? 0x9) || (c =? 0xB) || (c =? 0xC) || (c =? 0xFEFF)
   || (c =? 0x20) || (c =? 0xA0) || (c =? 0x1680)
   || ((0x2000 <=? c) && (c <=? 0x200A))
   || (c =? 0x202F) || (c =? 0x205F) || (c =? 0x3000))%N.

(** LineTerminator (LF, CR, LS, PS). *)
Definition is_line_terminator (c : N) : bool :=
  ((c =? 0xA) || (c =? 0xD) || (c =? 0x2028) || (c =? 0x2029))%N.

Definition trimmable (c : N) : bool :=
  is_white_space c || is_line_terminator c.

Fixpoint trimStart (s : text) : text :=
  match s with
  | [] => []
  | c :: s' => if trimmable c then trimStart s' else s
  end.

Definition trimEnd (s : text) : text := reverse (trimStart (reverse s)).

(** [String.prototype.trim] *)
Definition trim (s : text) : text := trimEnd (trimStart s).

End JS.

Import JS.

(** ** Host objects *)

(** A DOM element is known by its identity only. *)
Definition Elem := positive.
Definition LeafId := nat.

(** What the plugin reads off a workspace leaf.  Every access in the source
    goes through [as any], so each element may be missing. *)
Record Leaf := {
  viewType : string;            (* leaf.view.getViewType() *)
  containerEl : option Elem;    (* leaf.containerEl *)
  contentEl : option Elem;      (* leaf.view.contentEl *)
  headerEl : option Elem;       (* leaf.view.headerEl *)
  controlsEl : option Elem;     (* leaf.view.dataEngine?.controlsEl *)
  editorEl : option Elem;       (* leaf.view.editMode?.editorEl *)
}.

Inductive FsRequest :=
| ReqEnter (el : Elem)
| ReqExit.

(** Calls the plugin makes into the DOM, in the order it makes them. *)
Inductive Effect :=
| SetProperty (name val : string)
| ClassAdd (el : Elem) (cls : string)
| ClassRemove (el : Elem) (cls : string)
| RequestFullscreen (el : Elem)
| ExitFullscreen
| SetOnFullscreenChange (el : Elem) (leaf : LeafId).

#[global] Instance Effect_eq_dec : EqDecision Effect.
Proof. solve_decision. Defined.

(** The document: fullscreen state, class lists, the root element's style
    and the [onfullscreenchange] property of every element, with the record
    of the calls made so far. *)
Record Document := {
  fullscreenElement : option Elem;
  pendingFs : option FsRequest;       (* asked of the host, not yet carried out *)
  classes : gmap Elem (gset string);  (* classList of every element *)
  rootStyle : gmap string string;     (* documentElement.style *)
  onfullscreenchange : gmap Elem LeafId;
  log : list Effect;
}.

Record World := {
  (* the plugin object *)
  settings : gmap string value;
  isInZenMode : bool;
  (* the plugin's data.json; [None] before the first save *)
  stored : option (gmap string value);
  (* app.workspace *)
  leaves : LeafId -> Leaf;
  activeLeaf : option LeafId;         (* workspace.activeLeaf *)
  activeItemView : option LeafId;     (* getActiveViewOfType(ItemView)?.leaf *)
  activeEditor : option text;         (* activeEditor?.editor, by its getValue() *)
  (* app.vault.getConfig('readableLineLength') *)
  readableLineLength : value;
  document : Document;
  (* bookkeeping of the model, not program state: entries into fullscreenMode *)
  toggleCalls : nat;
}.

(** An element that has never been given a class has none. *)
Definition classes_at (cl : gmap Elem (gset string)) (el : Elem) : gset string :=
  default ∅ (cl !! el).

Definition classList (w : World) (el : Elem) : gset string :=
  classes_at (classes (document w)) el.

Definition with_settings (s : gmap string value) (w : World) : World :=
  {| settings := s; isInZenMode := isInZenMode w; stored := stored w;
     leaves := leaves w; activeLeaf := activeLeaf w;
     activeItemView := activeItemView w; activeEditor := activeEditor w;
     readableLineLength := readableLineLength w;
     document := document w; toggleCalls := toggleCalls w |}.

Definition with_isInZenMode (b : bool) (w : World) : World :=
  {| settings := settings w; isInZenMode := b; stored := stored w;
     leaves := leaves w; activeLeaf := activeLeaf w;
     activeItemView := activeItemView w; activeEditor := activeEditor w;
     readableLineLength := readableLineLength w;
     document := document w; toggleCalls := toggleCalls w |}.

Definition with_stored (d : option (gmap string value)) (w : World) : World :=
  {| settings := settings w; isInZenMode := isInZenMode w; stored := d;
     leaves := leaves w; activeLeaf := activeLeaf w;
     activeItemView := activeItemView w; activeEditor := activeEditor w;
     readableLineLength := readableLineLength w;
     document := document w; toggleCalls := toggleCalls w |}.

Definition with_document (d : Document) (w : World) : World :=
  {| settings := settings w; isInZenMode := isInZenMode w; stored := stored w;
     leaves := leaves w; activeLeaf := activeLeaf w;
     activeItemView := activeItemView w; activeEditor := activeEditor w;
     readableLineLength := readableLineLength w;
     document := d; toggleCalls := toggleCalls w |}.

Definition with_toggleCalls (n : nat) (w : World) : World :=
  {| settings := settings w; isInZenMode := isInZenMode w; stored := stored w;
     leaves := leaves w; activeLeaf := activeLeaf w;
     activeItemView := activeItemView w; activeEditor := activeEditor w;
     readableLineLength := readableLineLength w;
     document := document w; toggleCalls := n |}.

(** ** Programs: state, and exceptions that keep the state reached *)

Inductive exn := TypeError.

Inductive outcome (A : Type) :=
| Normal (a : A)
| Throws (e : exn).
Arguments Normal {A} a.
Arguments Throws {A} e.

Definition M (A : Type) : Type := World -> World * outcome A.

#[global] Instance M_ret : MRet M := fun A a w => (w, Normal a).
#[global] Instance M_bind : MBind M := fun A B f m w =>
  match m w with
  | (w', Normal a) => f a w'
  | (w', Throws e) => (w', Throws e)
  end.

(** Binding with the program first, so that the type of the bound name is
    known where the continuation is read. *)
Definition bindM {A B} (m : M A) (k : A -> M B) : M B := mbind k m.

Notation "x <- m ;; k" := (bindM m (fun x => k))
  (at level 100, m at next level, k at level 200, right associativity,
   only parsing).

Definition throw {A} (e : exn) : M A := fun w => (w, Throws e).
Definition gets {A} (f : World -> A) : M A := fun w => (w, Normal (f w)).
Definition modify (f : World -> World) : M unit := fun w => (f w, Normal ()).

(** The world a program leaves, whether it returned or threw. *)
Definition exec {A} (m : M A) (w : World) : World := fst (m w).
Definition returns {A} (m : M A) (w : World) : bool :=
  match snd (m w) with Normal _ => true | Throws _ => false end.

(** ** DOM primitives *)

Definition record (e : Effect) (d : Document) : list Effect := log d ++ [e].

(** [el.classList.add(c)]; [el] undefined is a TypeError. *)
Definition classList_add (o : option Elem) (c : string) : M unit :=
  match o with
  | None => throw TypeError
  | Some el => modify (fun w =>
      let d := document w in
      with_document
        {| fullscreenElement := fullscreenElement d; pendingFs := pendingFs d;
           classes := <[el := classList w el ∪ {[c]}]> (classes d);
           rootStyle := rootStyle d;
           onfullscreenchange := onfullscreenchange d;
           log := record (ClassAdd el c) d |} w)
  end.

(** [el.classList.remove(c1, ..., cn)] *)
Definition classList_remove (o : option Elem) (cs : list string) : M unit :=
  match o with
  | None => throw TypeError
  | Some el => modify (fun w =>
      let d := document w in
      with_document
        {| fullscreenElement := fullscreenElement d; pendingFs := pendingFs d;
           classes := <[el := classList w el ∖ list_to_set cs]> (classes d);
           rootStyle := rootStyle d;
           onfullscreenchange := onfullscreenchange d;
           log := log d ++ (ClassRemove el <$> cs) |} w)
  end.

(** [document.documentElement.style.setProperty(name, val)]; an empty value
    removes the property. *)
Definition root_setProperty (name val : string) : M unit :=
  modify (fun w =>
    let d := document w in
    with_document
      {| fullscreenElement := fullscreenElement d; pendingFs := pendingFs d;
         classes := classes d;
         rootStyle := if bool_decide (val = "") then delete name (rootStyle d)
                      else <[name := val]> (rootStyle d);
         onfullscreenchange := onfullscreenchange d;
         log := record (SetProperty name val) d |} w).

(** [el.requestFullscreen()]: the request is left with the host. *)
Definition requestFullscreen (o : option Elem) : M unit :=
  match o with
  | None => throw TypeError
  | Some el => modify (fun w =>
      let d := document w in
      with_document
        {| fullscreenElement := fullscreenElement d;
           pendingFs := Some (ReqEnter el);
           classes := classes d; rootStyle := rootStyle d;
           onfullscreenchange := onfullscreenchange d;
           log := record (RequestFullscreen el) d |} w)
  end.

(** [document.exitFullscreen()] *)
Definition exitFullscreen : M unit :=
  modify (fun w =>
    let d := document w in
    with_document
      {| fullscreenElement := fullscreenElement d;
         pendingFs := Some ReqExit;
         classes := classes d; rootStyle := rootStyle d;
         onfullscreenchange := onfullscreenchange d;
         log := record ExitFullscreen d |} w).

(** [el.onfullscreenchange = () => ...], the closure holding [leaf]. *)
Definition set_onfullscreenchange (o : option Elem) (leaf : LeafId) : M unit :=
  match o with
  | None => throw TypeError
  | Some el => modify (fun w =>
      let d := document w in
      with_document
        {| fullscreenElement := fullscreenElement d; pendingFs := pendingFs d;
           classes := classes d; rootStyle := rootStyle d;
           onfullscreenchange := <[el := leaf]> (onfullscreenchange d);
           log := record (SetOnFullscreenChange el leaf) d |} w)
  end.

(** ** The plugin *)

Module Prozen.

Definition DEFAULT_SETTINGS : gmap string value :=
  <["animationDuration" := VNum "2"]> (
  <["showHeader" := VBool false]> (
  <["showScroll" := VBool false]> (
  <["showGraphControls" := VBool false]> (
  <["autoZenMode" := VBool false]> (
  <["forceReadable" := VBool true]> (
  <["vignetteOpacity" := VNum "0.75"]> (
  <["vignetteScaleLinear" := VNum "20"]> (
  <["vignetteScaleRadial" := VNum "75"]> ∅)))))))).

(** [this.settings.k] *)
Definition setting (k : string) : M value :=
  gets (fun w => JS.get (settings w) k).

(** [this.settings = Object.assign({}, DEFAULT_SETTINGS, await this.loadData())] *)
Definition loadSettings : M unit :=
  data <- gets stored;;
  modify (with_settings (assign (assign ∅ (Some DEFAULT_SETTINGS)) data)).

(** [await this.saveData(this.settings)] *)
Definition saveSettings : M unit :=
  s <- gets settings;;
  modify (with_stored (Some (json_roundtrip s))).

(** What the callbacks of the settings tab share:
    [this.plugin.settings.k = v; await this.plugin.saveSettings()].  For
    the five toggles this is the whole callback, [v] being the switch's
    boolean.  For the three sliders [v] is the slider's number, and the
    callback first writes it to a label of the settings panel, which is not
    part of the document modelled here; for the fade-in text field [v] is
    [Number(text)].  Neither that label nor the conversion is modelled. *)
Definition onChange (k : string) (v : value) : M unit :=
  s <- gets settings;;
  modify (with_settings (<[k := v]> s)) ;;
  saveSettings.

Definition isGraphView (leaf : LeafId) : M bool :=
  gets (fun w => bool_decide (viewType (leaves w leaf) = "graph")).

Definition addStyles (leaf : LeafId) : M unit :=
  viewEl <- gets (fun w => contentEl (leaves w leaf));;
  header <- gets (fun w => headerEl (leaves w leaf));;
  isGraph <- isGraphView leaf;;
  graphControls <- (if isGraph then gets (fun w => controlsEl (leaves w leaf))
                    else mret None);;
  showScroll <- setting "showScroll";;
  (if negb (truthy showScroll) then classList_add viewEl "noscroll"
   else mret ()) ;;
  showGraphControls <- setting "showGraphControls";;
  (if isGraph && negb (truthy showGraphControls) && defined graphControls
   then classList_add graphControls "hide" else mret ()) ;;
  (if isGraph then classList_add viewEl "vignette-radial"
   else classList_add viewEl "vignette-linear") ;;
  forceReadable <- setting "forceReadable";;
  (if negb isGraph && truthy forceReadable
   then e <- gets (fun w => editorEl (leaves w leaf));;
        match e with
        | Some _ => classList_add e "is-readable-line-width"
        | None => mret ()
        end
   else mret () : M unit) ;;
  classList_add viewEl "animate" ;;
  showHeader <- setting "showHeader";;
  if truthy showHeader then classList_add header "animate"
  else classList_add header "hide".

Definition removeStyles (leaf : LeafId) : M unit :=
  viewEl <- gets (fun w => contentEl (leaves w leaf));;
  header <- gets (fun w => headerEl (leaves w leaf));;
  isGraph <- isGraphView leaf;;
  (if isGraph
   then graphControls <- gets (fun w => controlsEl (leaves w leaf));;
        match graphControls with
        | Some _ => classList_remove graphControls ["animate"; "hide"]
        | None => mret ()
        end
   else readable <- gets readableLineLength;;
        if negb (truthy readable)
        then e <- gets (fun w => editorEl (leaves w leaf));;
             match e with
             | Some _ => classList_remove e ["is-readable-line-width"]
             | None => mret ()
             end
        else mret () : M unit) ;;
  classList_remove viewEl ["vignette-linear"; "vignette-radial"; "animate"; "noscroll"] ;;
  classList_remove header ["animate"; "hide"].

(** The closure [fullscreenMode] leaves in [containerEl.onfullscreenchange]. *)
Definition onFullscreenChange (leaf : LeafId) : M unit :=
  fs <- gets (fun w => fullscreenElement (document w));;
  match fs with
  | None => removeStyles leaf ;; modify (with_isInZenMode false)
  | Some _ => mret ()
  end.

Definition fullscreenMode : M unit :=
  modify (fun w => with_toggleCalls (S (toggleCalls w)) w) ;;
  leaf <- gets activeItemView;;
  match leaf with
  | None => mret ()
  | Some leaf =>
    ty <- gets (fun w => viewType (leaves w leaf));;
    if bool_decide (ty = "empty") then mret () else
    animationDuration <- setting "animationDuration";;
    root_setProperty "--fadeIn-duration" (add_str animationDuration "s") ;;
    vignetteOpacity <- setting "vignetteOpacity";;
    root_setProperty "--vignette-opacity" (add_str vignetteOpacity "%") ;;
    vignetteScaleLinear <- setting "vignetteScaleLinear";;
    root_setProperty "--vignette-scale-linear" (add_str vignetteScaleLinear "%") ;;
    vignetteScaleRadial <- setting "vignetteScaleRadial";;
    root_setProperty "--vignette-scale-radial" (add_str vignetteScaleRadial "%") ;;
    containerEl <- gets (fun w => containerEl (leaves w leaf));;
    fs <- gets (fun w => fullscreenElement (document w));;
    match fs with
    | None =>
        requestFullscreen containerEl ;;
        addStyles leaf ;;
        modify (with_isInZenMode true)
    | Some _ =>
        exitFullscreen ;;
        removeStyles leaf ;;
        modify (with_isInZenMode false)
    end ;;
    set_onfullscreenchange containerEl leaf
  end.

Definition handleEditorChange : M unit :=
  autoZenMode <- setting "autoZenMode";;
  zen <- gets isInZenMode;;
  if negb (truthy autoZenMode) || zen then mret () else
  activeLeaf <- gets activeLeaf;;
  match activeLeaf with
  | None => mret ()
  | Some l =>
    ty <- gets (fun w => viewType (leaves w l));;
    if bool_decide (ty = "empty") then mret () else
    editor <- gets activeEditor;;
    match editor with
    | Some value =>
        if bool_decide (0 < length (trim value))
        then fullscreenMode ;; modify (with_isInZenMode true)
        else mret ()
    | None => mret ()
    end
  end.

(** [onload]: the settings are loaded before any handler is registered. *)
Definition onload : M unit := loadSettings.

End Prozen.

Import Prozen.

(** ** The host's side of fullscreen *)

(** [fullscreenchange] delivered at [el]: the handler stored in its
    [onfullscreenchange] property runs; what it throws stays with the host. *)
Definition dispatch_fullscreenchange (el : Elem) (w : World) : World :=
  match onfullscreenchange (document w) !! el with
  | Some leaf => exec (onFullscreenChange leaf) w
  | None => w
  end.

Definition set_fullscreen (fs : option Elem) (w : World) : World :=
  let d := document w in
  with_document
    {| fullscreenElement := fs; pendingFs := None;
       classes := classes d; rootStyle := rootStyle d;
       onfullscreenchange := onfullscreenchange d; log := log d |} w.

(** The display leaves fullscreen, whoever asked for it. *)
Definition host_leave_fullscreen (w : World) : World :=
  match fullscreenElement (document w) with
  | Some el => dispatch_fullscreenchange el (set_fullscreen None w)
  | None => set_fullscreen None w
  end.

(** The host carries out the request left with it. *)
Definition host_settle (w : World) : World :=
  match pendingFs (document w) with
  | None => w
  | Some (ReqEnter el) => dispatch_fullscreenchange el (set_fullscreen (Some el) w)
  | Some ReqExit => host_leave_fullscreen w
  end.

(** The host refuses it. *)
Definition host_refuse (w : World) : World :=
  set_fullscreen (fullscreenElement (document w)) w.

(** The "Zen mode" command, with the host carrying out what it asked for. *)
Definition toggle (w : World) : World := host_settle (exec fullscreenMode w).

(** ** Sample worlds *)

Module Sample.

(** A note open in an editor: container 1, content 2, header 3, editing
    surface 4. *)
Definition note : Leaf :=
  {| viewType := "markdown"; containerEl := Some 1%positive;
     contentEl := Some 2%positive; headerEl := Some 3%positive;
     controlsEl := None; editorEl := Some 4%positive |}.

(** The graph view: container 5, content 6, header 7, controls 8. *)
Definition graph : Leaf :=
  {| viewType := "graph"; containerEl := Some 5%positive;
     contentEl := Some 6%positive; headerEl := Some 7%positive;
     controlsEl := Some 8%positive; editorEl := None |}.

(** A new tab. *)
Definition empty : Leaf :=
  {| viewType := "empty"; containerEl := Some 9%positive;
     contentEl := Some 10%positive; headerEl := Some 11%positive;
     controlsEl := None; editorEl := None |}.

(** A note whose leaf has no container element. *)
Definition uncontained : Leaf :=
  {| viewType := "markdown"; containerEl := None;
     contentEl := Some 12%positive; headerEl := Some 13%positive;
     controlsEl := None; editorEl := Some 14%positive |}.

Definition workspace_leaves (l : LeafId) : Leaf :=
  match l with
  | 0 => note
  | 1 => graph
  | 2 => empty
  | _ => uncontained
  end.

Definition blank_document : Document :=
  {| fullscreenElement := None; pendingFs := None; classes := ∅;
     rootStyle := ∅; onfullscreenchange := ∅; log := [] |}.

(** The plugin just loaded with its defaults, leaf [l] active and holding
    an editor with the text "hi". *)
Definition fresh (l : LeafId) : World :=
  {| settings := DEFAULT_SETTINGS; isInZenMode := false; stored := None;
     leaves := workspace_leaves;
     activeLeaf := Some l; activeItemView := Some l;
     activeEditor := Some [104; 105]%N;
     readableLineLength := VBool false;
     document := blank_document; toggleCalls := 0 |}.

Definition autozen (w : World) : World :=
  with_settings (<["autoZenMode" := VBool true]> (settings w)) w.

(** Some element (here 20) is already fullscreen. *)
Definition fullscreen_elsewhere (w : World) : World :=
  let d := document w in
  with_document
    {| fullscreenElement := Some 20%positive; pendingFs := pendingFs d;
       classes := classes d; rootStyle := rootStyle d;
       onfullscreenchange := onfullscreenchange d; log := log d |} w.

(** The active leaf shows a view that is not an [ItemView]. *)
Definition no_item_view (w : World) : World :=
  {| settings := settings w; isInZenMode := isInZenMode w; stored := stored w;
     leaves := leaves w; activeLeaf := activeLeaf w;
     activeItemView := None; activeEditor := activeEditor w;
     readableLineLength := readableLineLength w;
     document := document w; toggleCalls := toggleCalls w |}.

Definition readable_on (w : World) : World :=
  {| settings := settings w; isInZenMode := isInZenMode w; stored := stored w;
     leaves := leaves w; activeLeaf := activeLeaf w;
     activeItemView := activeItemView w; activeEditor := activeEditor w;
     readableLineLength := VBool true;
     document := document w; toggleCalls := toggleCalls w |}.

End Sample.

(** ** Vocabulary of the statements *)

(** The entry points the host calls into. *)
Inductive Handler :=
| OnLoad
| SaveSettings
| SettingChanged (k : string) (v : value)
| ZenCommand
| EditorChange
| FullscreenChange (leaf : LeafId).

Definition handle (h : Handler) : M unit :=
  match h with
  | OnLoad => onload
  | SaveSettings => saveSettings
  | SettingChanged k v => onChange k v
  | ZenCommand => fullscreenMode
  | EditorChange => handleEditorChange
  | FullscreenChange leaf => onFullscreenChange leaf
  end.

(** The guard of the auto-zen trigger, in the words of the specification
    (section 4.5): the preference is enabled, the plugin is not in zen mode,
    there is an active view that is not the empty placeholder, and there is
    an active editor whose trimmed content is not empty. *)
Definition auto_zen_conditions (w : World) : Prop :=
  truthy (JS.get (settings w) "autoZenMode") = true /\
  isInZenMode w = false /\
  (exists l, activeLeaf w = Some l /\ viewType (leaves w l) <> "empty") /\
  (exists value, activeEditor w = Some value /\ 0 < length (trim value)).

(** A leaf with the three elements the plugin dereferences unguarded. *)
Definition complete (lf : Leaf) : Prop :=
  is_Some (containerEl lf) /\ is_Some (contentEl lf) /\ is_Some (headerEl lf).

Definition is_vignette_add (e : Effect) : bool :=
  match e with
  | ClassAdd _ c =>
      bool_decide (c = "vignette-radial") || bool_decide (c = "vignette-linear")
  | _ => false
  end.

Definition readable_width : string := "is-readable-line-width".

(** The world with another class table and more DOM calls on record. *)
Definition restyle (cl : gmap Elem (gset string)) (new : list Effect)
           (w : World) : World :=
  let d := document w in
  with_document
    {| fullscreenElement := fullscreenElement d; pendingFs := pendingFs d;
       classes := cl; rootStyle := rootStyle d;
       onfullscreenchange := onfullscreenchange d;
       log := log d ++ new |} w.

(** The enter-zen style set of the specification (section 4.3), as the
    classes it gives element [el] for the view of leaf [l]. *)
Definition enter_zen_classes (w : World) (l : LeafId) (el : Elem) : gset string :=
  let lf := leaves w l in
  let pref k := truthy (JS.get (settings w) k) in
  let isGraph := bool_decide (viewType lf = "graph") in
  (if bool_decide (contentEl lf = Some el)
   then (if pref "showScroll" then ∅ else {["noscroll"]})
        ∪ {[if isGraph then "vignette-radial" else "vignette-linear"]}
        ∪ {["animate"]}
   else ∅)
  ∪ (if bool_decide (headerEl lf = Some el)
     then {[if pref "showHeader" then "animate" else "hide"]} else ∅)
  ∪ (if isGraph && negb (pref "showGraphControls")
        && bool_decide (controlsEl lf = Some el)
     then {["hide"]} else ∅)
  ∪ (if negb isGraph && pref "forceReadable"
        && bool_decide (editorEl lf = Some el)
     then {[readable_width]} else ∅).

(** The exit-zen style set of the specification (section 4.4), as the
    classes it takes from element [el]. *)
Definition exit_zen_classes (w : World) (l : LeafId) (el : Elem) : gset string :=
  let lf := leaves w l in
  let isGraph := bool_decide (viewType lf = "graph") in
  (if bool_decide (contentEl lf = Some el)
   then {["vignette-linear"; "vignette-radial"; "animate"; "noscroll"]} else ∅)
  ∪ (if bool_decide (headerEl lf = Some el) then {["animate"; "hide"]} else ∅)
  ∪ (if isGraph && bool_decide (controlsEl lf = Some el)
     then {["animate"; "hide"]} else ∅)
  ∪ (if negb isGraph && negb (truthy (readableLineLength w))
        && bool_decide (editorEl lf = Some el)
     then {[readable_width]} else ∅).

(** The four writes [fullscreenMode] makes to the root element's style. *)
Definition style_writes (s : gmap string value) : list Effect :=
  [ SetProperty "--fadeIn-duration" (to_string (JS.get s "animationDuration") +:+ "s");
    SetProperty "--vignette-opacity" (to_string (JS.get s "vignetteOpacity") +:+ "%");
    SetProperty "--vignette-scale-linear" (to_string (JS.get s "vignetteScaleLinear") +:+ "%");
    SetProperty "--vignette-scale-radial" (to_string (JS.get s "vignetteScaleRadial") +:+ "%") ].

(** A preference set with every documented field. *)
Definition populated (s : gmap string value) : Prop :=
  forall k, is_Some (DEFAULT_SETTINGS !! k) -> is_Some (s !! k).

(** Values that [JSON.stringify] writes and [JSON.parse] reads back as they
    were. *)
Definition json_stable (s : gmap string value) : Prop :=
  forall k v, s !! k = Some v -> json_field v = Some v.

(** ** Facts about the JavaScript fragment *)

Section Trim.

Implicit Types (s : text) (c : N).

Lemma trimStart_subset s c : c ∈ trimStart s -> c ∈ s.
Proof.
  induction s as [|a s IH]; cbn; [done|].
  destruct (trimmable a); [|done].
  intros H. right. by apply IH.
Qed.

Lemma trimStart_keeps s c : c ∈ s -> trimmable c = false -> c ∈ trimStart s.
Proof.
  induction s as [|a s IH]; cbn; [done|].
  intros Hin Hc. destruct (trimmable a) eqn:Ha; [|done].
  apply elem_of_cons in Hin as [->|Hin]; [congruence|by apply IH].
Qed.

Lemma trimStart_head s c t : trimStart s = c :: t -> trimmable c = false.
Proof.
  induction s as [|a s IH]; cbn; [done|].
  destruct (trimmable a) eqn:Ha; [done|].
  by intros [= <- _].
Qed.

Lemma trim_subset s c : c ∈ trim s -> c ∈ s.
Proof.
  unfold trim, trimEnd. rewrite elem_of_reverse.
  intros H%trimStart_subset. rewrite elem_of_reverse in H.
  by apply trimStart_subset.
Qed.

Lemma trim_keeps s c : c ∈ s -> trimmable c = false -> c ∈ trim s.
Proof.
  intros Hin Hc. unfold trim, trimEnd. rewrite elem_of_reverse.
  apply trimStart_keeps; [|done]. rewrite elem_of_reverse.
  by apply trimStart_keeps.
Qed.

(** Something is left of a trimmed string exactly when the string holds a
    character that is neither white space nor a line terminator. *)
Lemma trim_nonempty s :
  0 < length (trim s) <-> exists c, c ∈ s /\ trimmable c = false.
Proof.
  split.
  - unfold trim, trimEnd. rewrite length_reverse.
    destruct (trimStart (reverse (trimStart s))) as [|c t] eqn:Hu; cbn; [lia|].
    intros _. exists c. split; [|by eapply trimStart_head].
    apply trimStart_subset. rewrite <- elem_of_reverse.
    apply trimStart_subset. rewrite Hu. left.
  - intros (c & Hin & Hc). pose proof (trim_keeps _ _ Hin Hc) as H.
    destruct (trim s); [by apply elem_of_nil in H|cbn; lia].
Qed.

End Trim.

Lemma add_str_nonempty v u : u <> "" -> add_str v u <> "".
Proof.
  unfold add_str. destruct (to_string v); cbn; [done | discriminate].
Qed.

Lemma assign_lookup target src k :
  assign target (Some src) !! k =
    match src !! k with Some v => Some v | None => target !! k end.
Proof.
  unfold assign. rewrite lookup_union.
  destruct (src !! k), (target !! k); reflexivity.
Qed.

(** ** Running programs symbolically *)

(** A program applied to a world is unfolded when that takes a step, and
    left alone when it would only expose a test that cannot be decided
    yet. *)
Arguments bindM {A B} m k w / : simpl nomatch.
Arguments mbind {M _ A B} f m / : simpl nomatch.
Arguments M_bind A B f m w / : simpl nomatch.
Arguments mret {M _ A} a /.
Arguments M_ret A a w /.
Arguments gets {A} f w /.
Arguments modify f w /.
Arguments throw {A} e w /.
Arguments exec {A} m w /.
Arguments returns {A} m w /.
Arguments setting k w /.
Arguments isGraphView leaf w /.
Arguments classList_add o c w / : simpl nomatch.
Arguments classList_remove o cs w / : simpl nomatch.
Arguments requestFullscreen o w / : simpl nomatch.
Arguments exitFullscreen w /.
Arguments set_onfullscreenchange o leaf w / : simpl nomatch.
Arguments with_settings s w /.
Arguments with_isInZenMode b w /.
Arguments with_stored d w /.
Arguments with_document d w /.
Arguments with_toggleCalls n w /.
Arguments restyle cl new w /.
Arguments record e d /.
Arguments classList w el /.
Arguments set_fullscreen fs w /.

Lemma M_bind_assoc A B C (k : B -> M C) (k2 : A -> M B) (m : M A) w :
  M_bind B C k (M_bind A B k2 m) w =
  M_bind A C (fun a => M_bind B C k (k2 a)) m w.
Proof. unfold M_bind. by destruct (m w) as [w' [a|e]]. Qed.

Lemma bind_root_setProperty B (k : unit -> M B) name v u w :
  u <> "" ->
  M_bind unit B k (root_setProperty name (add_str v u)) w =
    k () (with_document
       {| fullscreenElement := fullscreenElement (document w);
          pendingFs := pendingFs (document w);
          classes := classes (document w);
          rootStyle := <[name := add_str v u]> (rootStyle (document w));
          onfullscreenchange := onfullscreenchange (document w);
          log := log (document w) ++ [SetProperty name (add_str v u)] |} w).
Proof.
  intros Hu. unfold M_bind, root_setProperty, modify, record.
  by rewrite bool_decide_eq_false_2 by by apply add_str_nonempty.
Qed.

Ltac reduce_world :=
  cbn [bindM mbind M_bind mret M_ret gets modify throw exec returns
       setting isGraphView classList_add classList_remove
       requestFullscreen exitFullscreen set_onfullscreenchange record classList
       restyle with_settings with_isInZenMode with_stored with_document
       with_toggleCalls
       settings isInZenMode stored leaves activeLeaf activeItemView activeEditor
       readableLineLength document toggleCalls
       fullscreenElement pendingFs classes rootStyle onfullscreenchange log
       viewType containerEl contentEl headerEl controlsEl editorEl
       fst snd negb andb orb defined].

Ltac use_leaf :=
  match goal with
  | H : ?lv ?l = Build_Leaf _ _ _ _ _ _ |- context [?lv ?l] => rewrite H
  end.

Ltac write_style :=
  rewrite bind_root_setProperty by discriminate.

(** A read or a plain update in front of a continuation that starts with a
    test. *)
Ltac step_head :=
  match goal with
  | |- context [M_bind ?A ?B ?k (setting ?key) ?w] =>
      change (M_bind A B k (setting key) w) with (k (JS.get (settings w) key) w)
  | |- context [M_bind ?A ?B ?k (gets ?f) ?w] =>
      change (M_bind A B k (gets f) w) with (k (f w) w)
  | |- context [M_bind ?A ?B ?k (modify ?f) ?w] =>
      change (M_bind A B k (modify f) w) with (k () (f w))
  | |- context [M_bind ?A ?B ?k (M_ret _ ?a) ?w] =>
      change (M_bind A B k (M_ret _ a) w) with (k a w)
  end; cbv beta.

Ltac split_option :=
  match goal with
  | |- context [defined ?o] => is_var o; destruct o
  | |- context [classList_add ?o] => is_var o; destruct o
  | |- context [classList_remove ?o] => is_var o; destruct o
  | |- context [requestFullscreen ?o] => is_var o; destruct o
  | |- context [set_onfullscreenchange ?o] => is_var o; destruct o
  end.

Ltac split_branch :=
  match goal with
  | |- context [truthy ?v] => destruct (truthy v) eqn:?
  | |- context [bool_decide ?P] => destruct (bool_decide P) eqn:?
  | |- context [match ?o with Some _ => _ | None => _ end] => destruct o eqn:?
  end.

(** Tests whose answer is among the hypotheses. *)
Ltac decide_test :=
  match goal with
  | H : ?P |- context [bool_decide ?P] => rewrite (bool_decide_eq_true_2 P H)
  | H : ~ ?P |- context [bool_decide ?P] => rewrite (bool_decide_eq_false_2 P H)
  | H : ?P <> ?Q |- context [bool_decide (?P = ?Q)] =>
      rewrite (bool_decide_eq_false_2 (P = Q) H)
  end.

(** Step as far as the state is known, look up the leaf, and split on the
    first test that is left. *)
Ltac run :=
  repeat first
    [ progress (unfold bindM, mbind) | progress reduce_world | use_leaf
    | write_style | decide_test | step_head | rewrite M_bind_assoc
    | split_option | split_branch ].

(** Name the parts of the world. *)
Ltac open_world w :=
  destruct w as [s z st lv al aiv ae rll [fs pd cl rs h lg] tc];
  cbn [settings isInZenMode stored leaves activeLeaf activeItemView activeEditor
       readableLineLength document toggleCalls
       fullscreenElement pendingFs classes rootStyle onfullscreenchange log] in *.

(** ** Loading the settings *)

(** C7. [loadSettings] returns, and changes nothing but the settings.  With no
    stored data the settings are exactly the defaults, whose nine fields
    are animationDuration 2, showHeader false, showScroll false,
    showGraphControls false, autoZenMode false, forceReadable true,
    vignetteOpacity 0.75, vignetteScaleLinear 20 and vignetteScaleRadial 75.
    With stored data, every field present in it has the stored value and
    every absent field has its default. *)
Theorem loadSettings_defaults_overridden_by_stored (w : World) :
  let w' := exec loadSettings w in
  returns loadSettings w = true /\
  w' = with_settings (settings w') w /\
  match stored w with
  | None => settings w' = DEFAULT_SETTINGS
  | Some data =>
      forall k, settings w' !! k =
        match data !! k with
        | Some v => Some v
        | None => DEFAULT_SETTINGS !! k
        end
  end /\
  map_to_list DEFAULT_SETTINGS ≡ₚ
    [ ("animationDuration", VNum "2"); ("showHeader", VBool false);
      ("showScroll", VBool false); ("showGraphControls", VBool false);
      ("autoZenMode", VBool false); ("forceReadable", VBool true);
      ("vignetteOpacity", VNum "0.75"); ("vignetteScaleLinear", VNum "20");
      ("vignetteScaleRadial", VNum "75") ].
Proof.
  cbv zeta. unfold loadSettings, bindM, mbind, M_bind, gets, modify, exec, returns.
  cbn [fst snd]. split; [reflexivity|]. split; [reflexivity|]. split.
  - destruct (stored w) as [data|] eqn:Hs; cbn [settings with_settings].
    + intros k. rewrite assign_lookup. cbn [assign].
      by rewrite (right_id_L ∅ (∪)).
    + cbn [assign]. by rewrite (right_id_L ∅ (∪)).
  - unfold DEFAULT_SETTINGS.
    rewrite !map_to_list_insert by (by vm_compute).
    rewrite map_to_list_empty. reflexivity.
Qed.

(** ** The toggle and its guards *)

(** C8. With no active [ItemView], or with one of the empty placeholder type,
    [fullscreenMode] returns at once: the flag, the settings and the whole
    document (style variables, class lists, fullscreen state and request,
    handlers, and the record of DOM calls) are as before. *)
Theorem fullscreenMode_without_target (w : World) :
  activeItemView w = None \/
  (exists l, activeItemView w = Some l /\ viewType (leaves w l) = "empty") ->
  fullscreenMode w = (with_toggleCalls (S (toggleCalls w)) w, Normal ()) /\
  isInZenMode (exec fullscreenMode w) = isInZenMode w /\
  document (exec fullscreenMode w) = document w.
Proof.
  intros H.
  assert (fullscreenMode w = (with_toggleCalls (S (toggleCalls w)) w, Normal ()))
    as Hrun.
  { open_world w. unfold fullscreenMode.
    destruct H as [-> | (l & -> & Hty)]; [by run|].
    destruct (lv l) as [vt cE vE hE gE eE] eqn:El. cbn [viewType] in Hty.
    by run. }
  unfold exec. rewrite Hrun. by cbn.
Qed.

Lemma fullscreenMode_without_target_witness :
  fullscreenMode (Sample.no_item_view (Sample.fresh 0)) =
    (with_toggleCalls 1 (Sample.no_item_view (Sample.fresh 0)), Normal ()) /\
  fullscreenMode (Sample.fresh 2) =
    (with_toggleCalls 1 (Sample.fresh 2), Normal ()).
Proof.
  split.
  - apply (fullscreenMode_without_target (Sample.no_item_view (Sample.fresh 0))).
    left. reflexivity.
  - apply (fullscreenMode_without_target (Sample.fresh 2)).
    right. exists 2. split; reflexivity.
Defined.


(** ** Style application *)

Lemma classes_at_insert cl e0 X el :
  classes_at (<[e0 := X]> cl) el =
    if decide (e0 = el) then X else classes_at cl el.
Proof.
  unfold classes_at. rewrite lookup_insert. by case_decide.
Qed.

Ltac use_tests :=
  repeat match goal with
  | H : truthy ?v = _ |- context [truthy ?v] => rewrite H
  | H : bool_decide ?P = _ |- context [bool_decide ?P] => rewrite H
  end.

Ltac same_element :=
  repeat match goal with
  | |- context [bool_decide (Some ?a = Some ?b)] =>
      destruct (decide (a = b)) as [->|?];
      [rewrite (bool_decide_eq_true_2 (Some b = Some b) eq_refl)
      |rewrite (bool_decide_eq_false_2 (Some a = Some b)) by congruence]
  | |- context [bool_decide (@None ?A = Some ?b)] =>
      rewrite (bool_decide_eq_false_2 (@None A = Some b)) by done
  end.

Ltac class_sets :=
  use_tests; same_element; cbn [negb andb orb];
  rewrite ?classes_at_insert;
  repeat case_decide; try congruence; try set_solver.

(** Give the class table and the new DOM calls of a [restyle]. *)
Ltac frame_done :=
  rewrite <- ?app_assoc; cbn [app];
  first [ eexists _, _, _; split; [reflexivity|]
        | eexists _, (@nil Effect), _; rewrite app_nil_r; split; [reflexivity|] ].

(** [addStyles] and [removeStyles] touch class lists only, and return when
    the content and header elements are there. *)
Lemma addStyles_restyle l w :
  exists cl new o, addStyles l w = (restyle cl new w, o) /\
    (is_Some (contentEl (leaves w l)) -> is_Some (headerEl (leaves w l)) ->
     o = Normal ()).
Proof.
  open_world w. destruct (lv l) as [vt cE vE hE gE eE] eqn:El.
  unfold addStyles. cbn [contentEl headerEl].
  run.
  all: frame_done; intros [? ?] [? ?]; done.
Qed.

Lemma removeStyles_restyle l w :
  exists cl new o, removeStyles l w = (restyle cl new w, o) /\
    (is_Some (contentEl (leaves w l)) -> is_Some (headerEl (leaves w l)) ->
     o = Normal ()).
Proof.
  open_world w. destruct (lv l) as [vt cE vE hE gE eE] eqn:El.
  unfold removeStyles. cbn [contentEl headerEl].
  run.
  all: frame_done; intros [? ?] [? ?]; done.
Qed.

(** [addStyles] gives every element the classes of the enter-zen set. *)
Lemma addStyles_classes l w el :
  is_Some (contentEl (leaves w l)) -> is_Some (headerEl (leaves w l)) ->
  classList (exec (addStyles l) w) el =
    classList w el ∪ enter_zen_classes w l el.
Proof.
  open_world w. destruct (lv l) as [vt cE vE hE gE eE] eqn:El.
  cbn [contentEl headerEl]. intros [v ->] [hd ->].
  remember (enter_zen_classes _ l el) as R eqn:HR.
  unfold addStyles.
  run.
  all: unfold enter_zen_classes in HR; cbn [leaves settings] in HR;
    rewrite El in HR;
    cbn [viewType contentEl headerEl controlsEl editorEl] in HR; subst R.
  all: class_sets.
Qed.

(** [removeStyles] never gives an element a class, whether it returns or
    not. *)
Lemma removeStyles_shrinks l w el :
  classList (exec (removeStyles l) w) el ⊆ classList w el.
Proof.
  open_world w. destruct (lv l) as [vt cE vE hE gE eE] eqn:El.
  unfold removeStyles.
  run.
  all: rewrite ?classes_at_insert; repeat case_decide; set_solver.
Qed.

(** [removeStyles] takes the classes of the exit-zen set from every
    element. *)
Lemma removeStyles_classes l w el :
  is_Some (contentEl (leaves w l)) -> is_Some (headerEl (leaves w l)) ->
  classList (exec (removeStyles l) w) el =
    classList w el ∖ exit_zen_classes w l el.
Proof.
  open_world w. destruct (lv l) as [vt cE vE hE gE eE] eqn:El.
  cbn [contentEl headerEl]. intros [v ->] [hd ->].
  remember (exit_zen_classes _ l el) as R eqn:HR.
  unfold removeStyles.
  run.
  all: unfold exit_zen_classes in HR; cbn [leaves settings readableLineLength] in HR;
    rewrite El in HR;
    cbn [viewType contentEl headerEl controlsEl editorEl] in HR; subst R.
  all: class_sets.
Qed.

Lemma M_bind_run A B (k : A -> M B) (m : M A) w w' o :
  m w = (w', o) ->
  M_bind A B k m w =
    match o with Normal a => k a w' | Throws e => (w', Throws e) end.
Proof. unfold M_bind. by intros ->. Qed.

(** The two together, in the form the callers use. *)
Lemma addStyles_spec l w :
  exists cl new o, addStyles l w = (restyle cl new w, o) /\
    (is_Some (contentEl (leaves w l)) -> is_Some (headerEl (leaves w l)) ->
     o = Normal () /\
     forall el, classes_at cl el = classList w el ∪ enter_zen_classes w l el).
Proof.
  destruct (addStyles_restyle l w) as (cl' & new & o & E & Ho).
  exists cl', new, o. split; [done|]. intros Hv Hh. split; [by apply Ho|].
  intros el. rewrite <- (addStyles_classes l w el Hv Hh).
  unfold exec. rewrite E. reflexivity.
Qed.

Lemma removeStyles_spec l w :
  exists cl new o, removeStyles l w = (restyle cl new w, o) /\
    (forall el, classes_at cl el ⊆ classList w el) /\
    (is_Some (contentEl (leaves w l)) -> is_Some (headerEl (leaves w l)) ->
     o = Normal () /\
     forall el, classes_at cl el = classList w el ∖ exit_zen_classes w l el).
Proof.
  destruct (removeStyles_restyle l w) as (cl' & new & o & E & Ho).
  exists cl', new, o. split; [done|]. split.
  - intros el. pose proof (removeStyles_shrinks l w el) as H.
    unfold exec in H. by rewrite E in H.
  - intros Hv Hh. split; [by apply Ho|].
    intros el. rewrite <- (removeStyles_classes l w el Hv Hh).
    unfold exec. rewrite E. reflexivity.
Qed.

(** Inside a caller: replace the call by a [restyle] of unknown class table,
    keeping what is known of that table. *)
Ltac use_styles :=
  match goal with
  | |- context [M_bind ?A ?B ?k (addStyles ?l) ?W] =>
      let E := fresh "Eadd" in let H := fresh "Hadd" in
      destruct (addStyles_spec l W) as (? & ? & ? & E & H);
      rewrite (M_bind_run A B k (addStyles l) W _ _ E); clear E
  | |- context [M_bind ?A ?B ?k (removeStyles ?l) ?W] =>
      let E := fresh "Erem" in let H := fresh "Hsub" in let H' := fresh "Hrem" in
      destruct (removeStyles_spec l W) as (? & ? & ? & E & H & H');
      rewrite (M_bind_run A B k (removeStyles l) W _ _ E); clear E
  end.

(** The same inside [fullscreenMode], with the style calls kept whole. *)
Ltac run_toggle :=
  repeat first [ use_styles
    | progress (unfold bindM, mbind) | progress reduce_world | use_leaf
    | write_style | decide_test | step_head | rewrite M_bind_assoc
    | split_option | split_branch
    | match goal with
      | |- context [match ?o with Normal _ => _ | Throws _ => _ end] =>
          is_var o; destruct o
      end ].


(** C9. Past the two view guards, in either direction and whatever happens
    later in the call, the first four DOM calls of [fullscreenMode] write
    the four style variables from the settings as they are now (the fade
    duration with the unit s, the other three with the percent sign), and
    the root element's style holds these values afterwards. *)
Theorem fullscreenMode_writes_style_variables (w : World) (l : LeafId) :
  activeItemView w = Some l ->
  viewType (leaves w l) <> "empty" ->
  let w' := exec fullscreenMode w in
  let s := settings w in
  (exists rest,
     log (document w') = (log (document w) ++ style_writes s ++ rest)%list) /\
  rootStyle (document w') !! "--fadeIn-duration" =
    Some (to_string (JS.get s "animationDuration") +:+ "s") /\
  rootStyle (document w') !! "--vignette-opacity" =
    Some (to_string (JS.get s "vignetteOpacity") +:+ "%") /\
  rootStyle (document w') !! "--vignette-scale-linear" =
    Some (to_string (JS.get s "vignetteScaleLinear") +:+ "%") /\
  rootStyle (document w') !! "--vignette-scale-radial" =
    Some (to_string (JS.get s "vignetteScaleRadial") +:+ "%").
Proof.
  open_world w. intros -> Hty.
  destruct (lv l) as [vt cE vE hE gE eE] eqn:El. cbn [viewType] in Hty.
  unfold fullscreenMode, style_writes.
  run_toggle.
  all: unfold add_str.
  all: try (split; [rewrite <- ?app_assoc; cbn [app]; eexists; reflexivity|]).
  all: repeat split; by simplify_map_eq.
Qed.

Lemma fullscreenMode_writes_style_variables_witness :
  rootStyle (document (exec fullscreenMode (Sample.fresh 0)))
    !! "--vignette-opacity" = Some "0.75%" /\
  rootStyle (document (exec fullscreenMode (Sample.fullscreen_elsewhere (Sample.fresh 0))))
    !! "--fadeIn-duration" = Some "2s".
Proof.
  split.
  - pose proof (fullscreenMode_writes_style_variables (Sample.fresh 0) 0) as H.
    cbv zeta in H. destruct H as (_ & _ & H & _); [reflexivity|discriminate|].
    exact H.
  - pose proof (fullscreenMode_writes_style_variables
                  (Sample.fullscreen_elsewhere (Sample.fresh 0)) 0) as H.
    cbv zeta in H. destruct H as (_ & H & _); [reflexivity|discriminate|].
    exact H.
Defined.

(** ** The auto-zen trigger *)

(** [fullscreenMode] changes the document and the flag, and counts one more
    entry; nothing else. *)
Lemma fullscreenMode_frame w :
  exists d b o,
    fullscreenMode w =
      (with_document d (with_isInZenMode b (with_toggleCalls (S (toggleCalls w)) w)), o).
Proof.
  open_world w. unfold fullscreenMode.
  destruct aiv as [l|]; [destruct (lv l) as [vt cE vE hE gE eE] eqn:El|].
  all: run_toggle.
  all: eexists _, _, _; reflexivity.
Qed.

Lemma auto_zen_conditions_decided w :
  auto_zen_conditions w \/ ~ auto_zen_conditions w.
Proof.
  unfold auto_zen_conditions.
  destruct (truthy (JS.get (settings w) "autoZenMode")); [|right; intros (? & _); done].
  destruct (isInZenMode w); [right; intros (_ & ? & _); done|].
  destruct (activeLeaf w) as [l|]; [|right; intros (_ & _ & (? & ? & _) & _); done].
  destruct (decide (viewType (leaves w l) = "empty")) as [Hty|Hty];
    [right; intros (_ & _ & (? & [= <-] & ?) & _); done|].
  destruct (activeEditor w) as [value|];
    [|right; intros (_ & _ & _ & (? & ? & _)); done].
  destruct (decide (0 < length (trim value))) as [Hlen|Hlen];
    [|right; intros (_ & _ & _ & (? & [= <-] & ?)); done].
  left. eauto 10.
Qed.

Lemma handleEditorChange_idle w :
  ~ auto_zen_conditions w -> handleEditorChange w = (w, Normal ()).
Proof.
  unfold auto_zen_conditions. open_world w. intros Hno.
  unfold handleEditorChange.
  destruct (truthy (JS.get s "autoZenMode")) eqn:Hauto; [|by run].
  destruct z; [by run|].
  destruct al as [l|]; [|by run].
  destruct (decide (viewType (lv l) = "empty")) as [Hty|Hty].
  { destruct (lv l) as [vt cE vE hE gE eE] eqn:El. cbn [viewType] in Hty. by run. }
  destruct ae as [value|].
  2:{ destruct (lv l) as [vt cE vE hE gE eE] eqn:El. cbn [viewType] in Hty. by run. }
  destruct (decide (0 < length (trim value))) as [Hlen|Hlen].
  { exfalso. apply Hno. repeat split; eauto. }
  destruct (lv l) as [vt cE vE hE gE eE] eqn:El. cbn [viewType] in Hty. by run.
Qed.

Lemma handleEditorChange_acts w :
  auto_zen_conditions w ->
  handleEditorChange w =
    M_bind unit unit (fun _ => modify (with_isInZenMode true)) fullscreenMode w.
Proof.
  unfold auto_zen_conditions. open_world w.
  intros (Hauto & -> & (l & -> & Hty) & (value & -> & Hlen)).
  unfold handleEditorChange.
  destruct (lv l) as [vt cE vE hE gE eE] eqn:El. cbn [viewType] in Hty.
  run; (congruence || reflexivity).
Qed.

(** What the handler does when it acts: the call of [fullscreenMode], and
    then the flag set if that call returned. *)
Lemma handleEditorChange_fires w :
  auto_zen_conditions w ->
  handleEditorChange w =
    match fullscreenMode w with
    | (w1, Normal _) => (with_isInZenMode true w1, Normal ())
    | (w1, Throws e) => (w1, Throws e)
    end.
Proof.
  intros Hyes. rewrite (handleEditorChange_acts w Hyes).
  unfold M_bind, modify. by destruct (fullscreenMode w) as [w1 [[]|e]].
Qed.

(** C3. [handleEditorChange] calls [fullscreenMode] exactly when the
    preference is enabled, the flag is not set, there is an active leaf
    whose view is not the empty placeholder, and there is an active editor
    whose trimmed content is not empty.  Under these conditions the handler
    leaves the world [fullscreenMode] leaves, with the flag set on top if
    that call returned, and fails as that call fails.  In every other case
    it returns with the world untouched; in particular the count of entries
    into [fullscreenMode] goes up, by one, under these conditions only. *)
Theorem auto_zen_acts_iff_conditions (w : World) :
  let w' := exec handleEditorChange w in
  (auto_zen_conditions w ->
   handleEditorChange w =
     match fullscreenMode w with
     | (w1, Normal _) => (with_isInZenMode true w1, Normal ())
     | (w1, Throws e) => (w1, Throws e)
     end) /\
  (~ auto_zen_conditions w -> handleEditorChange w = (w, Normal ())) /\
  (toggleCalls w' = S (toggleCalls w) <-> auto_zen_conditions w).
Proof.
  cbv zeta. split; [apply handleEditorChange_fires|].
  split; [apply handleEditorChange_idle|]. split.
  - intros Hcalls. destruct (auto_zen_conditions_decided w) as [|Hno]; [done|].
    unfold exec in Hcalls.
    rewrite (handleEditorChange_idle w Hno) in Hcalls. cbn in Hcalls. lia.
  - intros Hyes. unfold exec. rewrite (handleEditorChange_acts w Hyes).
    destruct (fullscreenMode_frame w) as (d & b & o & E).
    rewrite (M_bind_run _ _ _ _ _ _ _ E). by destruct o.
Qed.

(** On a note with the preference on: the handler has asked for fullscreen
    on the container, styled the content element and set the flag. *)
Lemma auto_zen_acts_iff_conditions_witness :
  handleEditorChange (Sample.autozen (Sample.fresh 0)) =
    (with_isInZenMode true (exec fullscreenMode (Sample.autozen (Sample.fresh 0))),
     Normal ()) /\
  pendingFs (document (exec handleEditorChange (Sample.autozen (Sample.fresh 0)))) =
    Some (ReqEnter 1%positive) /\
  handleEditorChange (Sample.fresh 0) = (Sample.fresh 0, Normal ()).
Proof.
  pose proof (auto_zen_acts_iff_conditions (Sample.autozen (Sample.fresh 0))) as H.
  cbv zeta in H. destruct H as (Hact & _ & _).
  pose proof (auto_zen_acts_iff_conditions (Sample.fresh 0)) as H.
  cbv zeta in H. destruct H as (_ & Hidle & _).
  assert (auto_zen_conditions (Sample.autozen (Sample.fresh 0))) as Hyes.
  { repeat split; [exists 0; split; [reflexivity|discriminate]|].
    eexists; split; [reflexivity|]. vm_compute. lia. }
  split; [|split].
  - rewrite (Hact Hyes). vm_compute. reflexivity.
  - unfold exec. rewrite (Hact Hyes). vm_compute. reflexivity.
  - apply Hidle. intros (Hauto & _). vm_compute in Hauto. discriminate Hauto.
Defined.

(** The style sets depend on the settings, the leaves and the host's
    readable-line-length option only. *)
Lemma enter_zen_classes_frame d b n w l el :
  enter_zen_classes (with_document d (with_isInZenMode b (with_toggleCalls n w))) l el
  = enter_zen_classes w l el.
Proof. reflexivity. Qed.

Lemma exit_zen_classes_frame d b n w l el :
  exit_zen_classes (with_document d (with_isInZenMode b (with_toggleCalls n w))) l el
  = exit_zen_classes w l el.
Proof. reflexivity. Qed.

(** Entering: not fullscreen, and the view has its three elements. *)
Lemma fullscreenMode_enter w l c :
  activeItemView w = Some l ->
  viewType (leaves w l) <> "empty" ->
  containerEl (leaves w l) = Some c ->
  is_Some (contentEl (leaves w l)) -> is_Some (headerEl (leaves w l)) ->
  fullscreenElement (document w) = None ->
  exists cl' rs' new,
    fullscreenMode w =
      (with_document
         {| fullscreenElement := None; pendingFs := Some (ReqEnter c);
            classes := cl'; rootStyle := rs';
            onfullscreenchange := <[c := l]> (onfullscreenchange (document w));
            log := log (document w) ++ new |}
         (with_isInZenMode true (with_toggleCalls (S (toggleCalls w)) w)),
       Normal ()) /\
    forall el, classes_at cl' el = classList w el ∪ enter_zen_classes w l el.
Proof.
  open_world w. intros -> Hty.
  destruct (lv l) as [vt cE vE hE gE eE] eqn:El.
  cbn [viewType containerEl contentEl headerEl] in *.
  intros -> Hv Hh ->.
  unfold fullscreenMode.
  run_toggle.
  all: cbn [leaves] in Hadd; rewrite El in Hadd; cbn [contentEl headerEl] in Hadd;
    destruct (Hadd Hv Hh) as [Ho Hcl]; try discriminate.
  rewrite <- ?app_assoc; cbn [app].
  eexists _, _, _. split; [reflexivity|].
  intros el. rewrite Hcl. reflexivity.
Qed.

(** Leaving: something is fullscreen. *)
Lemma fullscreenMode_exit w l c e :
  activeItemView w = Some l ->
  viewType (leaves w l) <> "empty" ->
  containerEl (leaves w l) = Some c ->
  is_Some (contentEl (leaves w l)) -> is_Some (headerEl (leaves w l)) ->
  fullscreenElement (document w) = Some e ->
  exists cl' rs' new,
    fullscreenMode w =
      (with_document
         {| fullscreenElement := Some e; pendingFs := Some ReqExit;
            classes := cl'; rootStyle := rs';
            onfullscreenchange := <[c := l]> (onfullscreenchange (document w));
            log := log (document w) ++ new |}
         (with_isInZenMode false (with_toggleCalls (S (toggleCalls w)) w)),
       Normal ()) /\
    forall el, classes_at cl' el = classList w el ∖ exit_zen_classes w l el.
Proof.
  open_world w. intros -> Hty.
  destruct (lv l) as [vt cE vE hE gE eE] eqn:El.
  cbn [viewType containerEl contentEl headerEl] in *.
  intros -> Hv Hh ->.
  unfold fullscreenMode.
  run_toggle.
  all: cbn [leaves] in Hrem; rewrite El in Hrem; cbn [contentEl headerEl] in Hrem;
    destruct (Hrem Hv Hh) as [Ho Hcl]; try discriminate.
  rewrite <- ?app_assoc; cbn [app].
  eexists _, _, _. split; [reflexivity|].
  intros el. rewrite Hcl. reflexivity.
Qed.

Lemma fullscreenMode_returns w :
  (forall l, activeItemView w = Some l -> complete (leaves w l)) ->
  returns fullscreenMode w = true.
Proof.
  intros Hc. destruct (activeItemView w) as [l|] eqn:Hl.
  - destruct (decide (viewType (leaves w l) = "empty")) as [Hty|Hty].
    + unfold returns.
      destruct (fullscreenMode_without_target w) as (-> & _); [eauto|done].
    + destruct (Hc l eq_refl) as ([c Hcont] & Hv & Hh).
      destruct (fullscreenElement (document w)) as [e|] eqn:Hfs.
      * destruct (fullscreenMode_exit w l c e) as (? & ? & ? & E & _); try done.
        unfold returns. by rewrite E.
      * destruct (fullscreenMode_enter w l c) as (? & ? & ? & E & _); try done.
        unfold returns. by rewrite E.
  - unfold returns.
    destruct (fullscreenMode_without_target w) as (-> & _); [eauto|done].
Qed.

(** C10. When the guard of the auto-zen trigger holds and the handler
    returns, the flag is set, whatever [fullscreenMode] did.  The handler
    does return when the view [fullscreenMode] resolves has its container,
    content and header elements.  With no [ItemView] to resolve the document
    is untouched, and with the display already fullscreen [fullscreenMode]
    itself clears the flag and asks to leave fullscreen: in both cases the
    flag ends up set although zen mode was not entered. *)
Theorem auto_zen_sets_flag_whatever_toggle_did (w : World) :
  auto_zen_conditions w ->
  (returns handleEditorChange w = true ->
   isInZenMode (exec handleEditorChange w) = true) /\
  ((forall l, activeItemView w = Some l -> complete (leaves w l)) ->
   returns handleEditorChange w = true) /\
  (activeItemView w = None ->
   document (exec handleEditorChange w) = document w) /\
  (forall l, activeItemView w = Some l -> viewType (leaves w l) <> "empty" ->
     complete (leaves w l) -> is_Some (fullscreenElement (document w)) ->
     isInZenMode (exec fullscreenMode w) = false /\
     pendingFs (document (exec handleEditorChange w)) = Some ReqExit /\
     fullscreenElement (document (exec handleEditorChange w)) =
       fullscreenElement (document w)).
Proof.
  intros Hyes. pose proof (handleEditorChange_acts w Hyes) as Hrun.
  unfold exec, returns. rewrite Hrun. split; [|split; [|split]].
  - destruct (fullscreenMode_frame w) as (d & b & o & E).
    rewrite (M_bind_run _ _ _ _ _ _ _ E). by destruct o.
  - intros Hc. pose proof (fullscreenMode_returns w Hc) as Hr. unfold returns in Hr.
    unfold M_bind. by destruct (fullscreenMode w) as [w' [[]|e]].
  - intros Hno. destruct (fullscreenMode_without_target w) as (E & _); [eauto|].
    unfold M_bind. rewrite E. reflexivity.
  - intros l Hl Hty ([c Hcont] & Hv & Hh) [e He].
    destruct (fullscreenMode_exit w l c e) as (? & ? & ? & E & _); try done.
    unfold M_bind. rewrite E. cbn. by rewrite He.
Qed.

Lemma auto_zen_sets_flag_whatever_toggle_did_witness :
  isInZenMode (exec handleEditorChange
                 (Sample.autozen (Sample.no_item_view (Sample.fresh 0)))) = true /\
  isInZenMode (exec handleEditorChange
                 (Sample.autozen (Sample.fullscreen_elsewhere (Sample.fresh 0)))) = true.
Proof.
  split.
  - pose proof (auto_zen_sets_flag_whatever_toggle_did
                  (Sample.autozen (Sample.no_item_view (Sample.fresh 0)))) as H.
    destruct H as (H & _).
    + repeat split; [exists 0; split; [reflexivity|discriminate]|].
      eexists; split; [reflexivity|]. vm_compute. lia.
    + apply H. reflexivity.
  - pose proof (auto_zen_sets_flag_whatever_toggle_did
                  (Sample.autozen (Sample.fullscreen_elsewhere (Sample.fresh 0)))) as H.
    destruct H as (H & _).
    + repeat split; [exists 0; split; [reflexivity|discriminate]|].
      eexists; split; [reflexivity|]. vm_compute. lia.
    + apply H. reflexivity.
Defined.

(** ** Who writes the flag *)

(** C1, as the code has it.  A handler that changes [isInZenMode] is the
    command, the fullscreen-change closure the command installs, or the
    auto-zen trigger with its guard holding, which then leaves the flag
    set by its own assignment.  Loading, saving and changing the settings
    never write the flag, and neither does the trigger when its guard
    fails. *)
Theorem flag_changes_only_through_toggle_or_trigger (h : Handler) (w : World) :
  isInZenMode (exec (handle h) w) <> isInZenMode w ->
  h = ZenCommand \/ (exists l, h = FullscreenChange l) \/
  (h = EditorChange /\ auto_zen_conditions w /\
   isInZenMode (exec (handle h) w) = true).
Proof.
  destruct h as [| |k v| | |l]; cbn [handle]; intros Hch.
  - by destruct Hch.
  - by destruct Hch.
  - by destruct Hch.
  - by left.
  - right; right. split; [done|].
    destruct (auto_zen_conditions_decided w) as [Hyes|Hno].
    + split; [done|]. destruct Hyes as (_ & Hz & _). rewrite Hz in Hch.
      by destruct (isInZenMode (exec handleEditorChange w)).
    + exfalso. apply Hch. unfold exec.
      by rewrite (handleEditorChange_idle w Hno).
  - right; left. by exists l.
Qed.

Lemma flag_changes_only_through_toggle_or_trigger_witness :
  EditorChange = ZenCommand \/ (exists l, EditorChange = FullscreenChange l) \/
  (EditorChange = EditorChange /\
   auto_zen_conditions (Sample.autozen (Sample.no_item_view (Sample.fresh 0))) /\
   isInZenMode (exec (handle EditorChange)
                  (Sample.autozen (Sample.no_item_view (Sample.fresh 0)))) = true).
Proof.
  apply (flag_changes_only_through_toggle_or_trigger EditorChange
           (Sample.autozen (Sample.no_item_view (Sample.fresh 0)))).
  vm_compute. discriminate.
Defined.

(** C1, as stated, fails: [handleEditorChange] assigns the flag itself.
    With some element already fullscreen, [fullscreenMode] takes the exit
    branch and clears the flag, and the handler, which called it once,
    returns with the flag set; with no [ItemView] to resolve,
    [fullscreenMode] writes nothing and the handler still sets the flag. *)
Lemma toggle_is_not_the_only_writer :
  isInZenMode (Sample.autozen (Sample.fullscreen_elsewhere (Sample.fresh 0))) = false /\
  isInZenMode (exec fullscreenMode
    (Sample.autozen (Sample.fullscreen_elsewhere (Sample.fresh 0)))) = false /\
  isInZenMode (exec (handle EditorChange)
    (Sample.autozen (Sample.fullscreen_elsewhere (Sample.fresh 0)))) = true /\
  toggleCalls (exec (handle EditorChange)
    (Sample.autozen (Sample.fullscreen_elsewhere (Sample.fresh 0)))) = 1 /\
  isInZenMode (exec fullscreenMode
    (Sample.autozen (Sample.no_item_view (Sample.fresh 0)))) = false /\
  isInZenMode (exec (handle EditorChange)
    (Sample.autozen (Sample.no_item_view (Sample.fresh 0)))) = true.
Proof. repeat split; vm_compute; reflexivity. Qed.

(** ** A leaf without a container element *)

(** C5, as the code has it.  There is no guard on the container element.
    Past the view guards, with the container missing, [fullscreenMode]
    writes the four style variables and then fails with a TypeError.  When
    nothing is fullscreen it fails at the fullscreen request: the flag, the
    class lists, the pending request and the handlers are as before, and
    the four writes are the only DOM calls made. *)
Theorem fullscreenMode_without_container (w : World) (l : LeafId) :
  activeItemView w = Some l ->
  viewType (leaves w l) <> "empty" ->
  containerEl (leaves w l) = None ->
  let w' := exec fullscreenMode w in
  returns fullscreenMode w = false /\
  (exists rest,
     log (document w') = (log (document w) ++ style_writes (settings w) ++ rest)%list) /\
  (fullscreenElement (document w) = None ->
   isInZenMode w' = isInZenMode w /\
   classes (document w') = classes (document w) /\
   pendingFs (document w') = pendingFs (document w) /\
   onfullscreenchange (document w') = onfullscreenchange (document w) /\
   log (document w') = (log (document w) ++ style_writes (settings w))%list).
Proof.
  open_world w. intros -> Hty.
  destruct (lv l) as [vt cE vE hE gE eE] eqn:El.
  cbn [viewType containerEl] in *. intros ->.
  unfold fullscreenMode, style_writes.
  run_toggle.
  all: unfold add_str; rewrite <- ?app_assoc; cbn [app].
  all: split; [done|]; split; [eexists; reflexivity || (exists []; by rewrite app_nil_r)|].
  all: try done.
  all: intros _; repeat split.
Qed.

Lemma fullscreenMode_without_container_witness :
  returns fullscreenMode (Sample.fresh 3) = false.
Proof.
  pose proof (fullscreenMode_without_container (Sample.fresh 3) 3) as H.
  cbv zeta in H. destruct H as (H & _); [reflexivity|discriminate|reflexivity|].
  exact H.
Defined.

(** C5, as stated, fails: on a note whose leaf has no container element
    the call throws after writing the style variables, and with an element
    already fullscreen it has asked to leave fullscreen before it
    throws. *)
Lemma fullscreenMode_without_container_is_no_noop :
  activeItemView (Sample.fresh 3) = Some 3 /\
  containerEl (leaves (Sample.fresh 3) 3) = None /\
  returns fullscreenMode (Sample.fresh 3) = false /\
  log (document (exec fullscreenMode (Sample.fresh 3))) =
    [ SetProperty "--fadeIn-duration" "2s";
      SetProperty "--vignette-opacity" "0.75%";
      SetProperty "--vignette-scale-linear" "20%";
      SetProperty "--vignette-scale-radial" "75%" ] /\
  returns fullscreenMode (Sample.fullscreen_elsewhere (Sample.fresh 3)) = false /\
  pendingFs (document (exec fullscreenMode
    (Sample.fullscreen_elsewhere (Sample.fresh 3)))) = Some ReqExit.
Proof. repeat split; vm_compute; reflexivity. Qed.

(** ** Entering and leaving zen style *)

(** C6. When the content element is there, [addStyles] makes exactly one
    vignette call on this invocation: it adds the radial class to the
    content element if the view is the graph view, and the linear class
    otherwise.  That class is on the element afterwards, and the other
    vignette class is there only if it was there before. *)
Theorem addStyles_one_vignette (w : World) (l : LeafId) (v : Elem) :
  contentEl (leaves w l) = Some v ->
  let w' := exec (addStyles l) w in
  let isGraph := bool_decide (viewType (leaves w l) = "graph") in
  (exists new : list Effect,
     log (document w') = (log (document w) ++ new)%list /\
     filter is_vignette_add new =
       [ClassAdd v (if isGraph then "vignette-radial" else "vignette-linear")]) /\
  (if isGraph then "vignette-radial" else "vignette-linear") ∈ classList w' v /\
  ((if isGraph then "vignette-linear" else "vignette-radial") ∈ classList w' v <->
   (if isGraph then "vignette-linear" else "vignette-radial") ∈ classList w v).
Proof.
  open_world w.
  destruct (lv l) as [vt cE vE hE gE eE] eqn:El.
  cbn [contentEl]. intros ->.
  unfold addStyles.
  run.
  all: split; [rewrite <- ?app_assoc; cbn [app]; eexists; split; reflexivity|].
  all: rewrite ?classes_at_insert; repeat case_decide; try congruence.
  all: set_solver.
Qed.

Lemma addStyles_one_vignette_witness :
  ("vignette-linear" ∈ classList (exec (addStyles 0) (Sample.fresh 0)) 2%positive) /\
  ("vignette-radial" ∈ classList (exec (addStyles 1) (Sample.fresh 1)) 6%positive).
Proof.
  split.
  - pose proof (addStyles_one_vignette (Sample.fresh 0) 0 2%positive) as H.
    cbv zeta in H. destruct H as (_ & H & _); [reflexivity|]. exact H.
  - pose proof (addStyles_one_vignette (Sample.fresh 1) 1 6%positive) as H.
    cbv zeta in H. destruct H as (_ & H & _); [reflexivity|]. exact H.
Defined.

Ltac reflect_tests :=
  repeat match goal with
  | H : bool_decide _ = true |- _ => apply bool_decide_eq_true in H
  | H : bool_decide _ = false |- _ => apply bool_decide_eq_false in H
  end.

(** C4. [removeStyles] takes the readable-width class from an element
    exactly when the view is not the graph view, the host's readable line
    length option is off, and the element is the view's editing surface;
    this holds of the class list and of the DOM calls made.  So for a note
    the class goes from the editing surface if and only if the host option
    is off, and for the graph view no element loses it. *)
Theorem removeStyles_readable_width (w : World) (l : LeafId) (el : Elem) :
  let w' := exec (removeStyles l) w in
  let lf := leaves w l in
  let removed :=
    viewType lf <> "graph" /\ truthy (readableLineLength w) = false /\
    editorEl lf = Some el in
  (readable_width ∈ classList w' el <->
   readable_width ∈ classList w el /\ ~ removed) /\
  (exists new : list Effect,
     log (document w') = (log (document w) ++ new)%list /\
     (ClassRemove el readable_width ∈ new <-> removed)).
Proof.
  open_world w.
  destruct (lv l) as [vt cE vE hE gE eE] eqn:El.
  cbn [viewType editorEl].
  unfold removeStyles.
  run.
  all: reflect_tests.
  all: split;
    [ rewrite ?classes_at_insert; repeat case_decide; subst
    | rewrite <- ?app_assoc; cbn [app];
      first [ eexists; split; [reflexivity|]
            | exists []; split; [by rewrite app_nil_r|] ] ].
  all: unfold readable_width in *; set_solver.
Qed.

(** ** Toggling twice *)

(** The command with the host carrying out the request: entering. *)
Lemma toggle_enter w l c :
  activeItemView w = Some l ->
  viewType (leaves w l) <> "empty" ->
  containerEl (leaves w l) = Some c ->
  is_Some (contentEl (leaves w l)) -> is_Some (headerEl (leaves w l)) ->
  fullscreenElement (document w) = None ->
  exists cl' rs' new,
    toggle w =
      with_document
         {| fullscreenElement := Some c; pendingFs := None;
            classes := cl'; rootStyle := rs';
            onfullscreenchange := <[c := l]> (onfullscreenchange (document w));
            log := log (document w) ++ new |}
         (with_isInZenMode true (with_toggleCalls (S (toggleCalls w)) w)) /\
    forall el, classes_at cl' el = classList w el ∪ enter_zen_classes w l el.
Proof.
  intros Hl Hty Hc Hv Hh Hfs.
  destruct (fullscreenMode_enter w l c Hl Hty Hc Hv Hh Hfs)
    as (cl' & rs' & new & E & Hcl).
  exists cl', rs', new. split; [|done].
  unfold toggle, exec. rewrite E. cbn [fst].
  unfold host_settle, dispatch_fullscreenchange. cbn.
  rewrite lookup_insert_eq. reflexivity.
Qed.

(** Leaving: the handler of the element that was fullscreen runs too. *)
Lemma toggle_exit w l c e :
  activeItemView w = Some l ->
  viewType (leaves w l) <> "empty" ->
  containerEl (leaves w l) = Some c ->
  is_Some (contentEl (leaves w l)) -> is_Some (headerEl (leaves w l)) ->
  fullscreenElement (document w) = Some e ->
  exists cl' rs' new,
    toggle w =
      with_document
         {| fullscreenElement := None; pendingFs := None;
            classes := cl'; rootStyle := rs';
            onfullscreenchange := <[c := l]> (onfullscreenchange (document w));
            log := log (document w) ++ new |}
         (with_isInZenMode false (with_toggleCalls (S (toggleCalls w)) w)) /\
    forall el, classes_at cl' el ⊆ classList w el ∖ exit_zen_classes w l el.
Proof.
  intros Hl Hty Hc Hv Hh Hfs.
  destruct (fullscreenMode_exit w l c e Hl Hty Hc Hv Hh Hfs)
    as (cl' & rs' & new & E & Hcl).
  unfold toggle, exec. rewrite E. cbn [fst].
  unfold host_settle, host_leave_fullscreen, dispatch_fullscreenchange. cbn.
  destruct (<[c:=l]> (onfullscreenchange (document w)) !! e) as [l'|].
  - unfold onFullscreenChange. run_toggle.
    + rewrite <- app_assoc. eexists _, _, _. split; [reflexivity|].
      intros el. etrans; [apply Hsub|]. cbn. by rewrite Hcl.
    + rewrite <- app_assoc. eexists _, _, _. split; [reflexivity|].
      intros el. etrans; [apply Hsub|]. cbn. by rewrite Hcl.
  - eexists _, _, _. split; [reflexivity|]. intros el. by rewrite Hcl.
Qed.

(** What entering adds, leaving takes away, but for the readable-width
    class when the host has its own readable line length on. *)
Lemma enter_zen_classes_removed w l el c :
  c ∈ enter_zen_classes w l el ->
  c <> readable_width \/ truthy (readableLineLength w) = false ->
  c ∈ exit_zen_classes w l el.
Proof.
  unfold enter_zen_classes, exit_zen_classes.
  destruct (bool_decide (viewType (leaves w l) = "graph")); cbn [negb andb].
  all: rewrite !elem_of_union; intros [[[H|H]|H]|H] Hrw.
  all: try (destruct (bool_decide (contentEl (leaves w l) = Some el));
            [|by apply not_elem_of_empty in H];
            left; left; left;
            destruct (truthy (JS.get (settings w) "showScroll")); set_solver).
  all: try (destruct (bool_decide (headerEl (leaves w l) = Some el));
            [|by apply not_elem_of_empty in H];
            left; left; right;
            destruct (truthy (JS.get (settings w) "showHeader")); set_solver).
  all: try by apply not_elem_of_empty in H.
  - destruct (truthy (JS.get (settings w) "showGraphControls")); cbn [negb andb] in H;
      [by apply not_elem_of_empty in H|].
    destruct (bool_decide (controlsEl (leaves w l) = Some el));
      [|by apply not_elem_of_empty in H].
    left; right. set_solver.
  - destruct (truthy (JS.get (settings w) "forceReadable")); cbn [negb andb] in H;
      [|by apply not_elem_of_empty in H].
    destruct (bool_decide (editorEl (leaves w l) = Some el));
      [|by apply not_elem_of_empty in H].
    apply elem_of_singleton in H as ->.
    destruct Hrw as [?|Hrw]; [done|]. rewrite Hrw. right. cbn. set_solver.
Qed.

(** C2, as the code has it.  Start with a view that resolves and has its
    container, content and header elements, and with the flag agreeing
    with the display (set exactly when some element is fullscreen); let the
    host carry out each request before the next call.  Then two calls of
    the command bring the flag back to its value, and a class the first
    call gave to an element is gone after the second, unless it is the
    readable-width class and the host's readable line length option is
    on. *)
Theorem toggle_twice_restores_consistent_state (w : World) (l : LeafId) :
  activeItemView w = Some l ->
  viewType (leaves w l) <> "empty" ->
  complete (leaves w l) ->
  isInZenMode w = defined (fullscreenElement (document w)) ->
  let w1 := toggle w in
  let w2 := toggle w1 in
  isInZenMode w2 = isInZenMode w /\
  forall el c,
    c ∈ classList w1 el -> c ∉ classList w el ->
    c <> readable_width \/ truthy (readableLineLength w) = false ->
    c ∉ classList w2 el.
Proof.
  intros Hl Hty ([c Hc] & Hv & Hh) Hz. cbv zeta.
  destruct (fullscreenElement (document w)) as [e|] eqn:Hfs; cbn [defined] in Hz.
  - destruct (toggle_exit w l c e Hl Hty Hc Hv Hh Hfs) as (cl1 & rs1 & n1 & -> & Hcl1).
    match goal with |- context [toggle ?W] => 
      destruct (toggle_enter W l c) as (cl2 & rs2 & n2 & -> & Hcl2); try done end.
    split; [by rewrite Hz|].
    intros el cls Hin Hout _. cbn in Hin. apply Hcl1 in Hin. set_solver.
  - destruct (toggle_enter w l c Hl Hty Hc Hv Hh Hfs) as (cl1 & rs1 & n1 & -> & Hcl1).
    match goal with |- context [toggle ?W] => 
      destruct (toggle_exit W l c c) as (cl2 & rs2 & n2 & -> & Hcl2); try done end.
    split; [by rewrite Hz|].
    intros el cls Hin Hout Hrw. cbn in Hin. rewrite Hcl1 in Hin.
    cbn. intros Hin2. apply Hcl2 in Hin2.
    rewrite exit_zen_classes_frame in Hin2. cbn in Hin2.
    assert (cls ∈ enter_zen_classes w l el) as Hent by set_solver.
    pose proof (enter_zen_classes_removed w l el cls Hent Hrw). set_solver.
Qed.

Lemma toggle_twice_restores_consistent_state_witness :
  isInZenMode (toggle (toggle (Sample.fresh 0))) = isInZenMode (Sample.fresh 0) /\
  isInZenMode (toggle (toggle (Sample.fresh 1))) = isInZenMode (Sample.fresh 1).
Proof.
  split.
  - pose proof (toggle_twice_restores_consistent_state (Sample.fresh 0) 0) as H.
    cbv zeta in H. destruct H as (H & _); [reflexivity|discriminate| |reflexivity|exact H].
    repeat split; eexists; reflexivity.
  - pose proof (toggle_twice_restores_consistent_state (Sample.fresh 1) 1) as H.
    cbv zeta in H. destruct H as (H & _); [reflexivity|discriminate| |reflexivity|exact H].
    repeat split; eexists; reflexivity.
Defined.

(** C2, as stated, fails in both of its parts.  On a note, with the host's
    readable line length option on, the first call gives the editing
    surface the readable-width class and the second leaves it there.  And
    from a state where the flag is set although nothing is fullscreen, the
    first call enters, the second leaves, and the flag ends cleared. *)
Lemma toggle_twice_does_not_always_restore :
  (readable_width ∉ classList (Sample.readable_on (Sample.fresh 0)) 4%positive) /\
  (readable_width ∈ classList (toggle (Sample.readable_on (Sample.fresh 0))) 4%positive) /\
  (readable_width ∈
     classList (toggle (toggle (Sample.readable_on (Sample.fresh 0)))) 4%positive) /\
  isInZenMode (with_isInZenMode true (Sample.fresh 0)) = true /\
  fullscreenElement (document (with_isInZenMode true (Sample.fresh 0))) = None /\
  isInZenMode (toggle (toggle (with_isInZenMode true (Sample.fresh 0)))) = false.
Proof.
  repeat split; try (vm_compute; reflexivity).
  all: apply (bool_decide_unpack _); vm_compute; exact I.
Qed.

(** * Further properties of the code *)

(** ** Style application on its own *)

(** [addStyles] and [removeStyles] leave settings, leaves and the host option
    as they are, so the style sets are the same afterwards. *)
Lemma exit_zen_classes_restyle cl new w l el :
  exit_zen_classes (restyle cl new w) l el = exit_zen_classes w l el.
Proof. reflexivity. Qed.

Lemma enter_zen_classes_restyle cl new w l el :
  enter_zen_classes (restyle cl new w) l el = enter_zen_classes w l el.
Proof. reflexivity. Qed.

Lemma fresh_has_no_classes l el : classList (Sample.fresh l) el = ∅.
Proof. unfold classList, classes_at. cbn. by rewrite lookup_empty. Qed.

(** X1. [addStyles] never takes a class from any element, whether it
    returns or fails half way. *)
Theorem addStyles_only_adds (w : World) (l : LeafId) (el : Elem) :
  classList w el ⊆ classList (exec (addStyles l) w) el.
Proof.
  open_world w. destruct (lv l) as [vt cE vE hE gE eE] eqn:El.
  unfold addStyles.
  run.
  all: rewrite ?classes_at_insert; repeat case_decide; set_solver.
Qed.

(** X2. [removeStyles] never gives any element a class, and a class it
    takes away is one of the six the plugin uses: classes of the host or of
    other plugins stay where they are, whether the call returns or not. *)
Theorem removeStyles_only_removes (w : World) (l : LeafId) (el : Elem) :
  classList (exec (removeStyles l) w) el ⊆ classList w el /\
  (forall c, c ∈ classList w el -> c ∉ classList (exec (removeStyles l) w) el ->
     c ∈ ({["vignette-linear"; "vignette-radial"; "animate"; "noscroll"; "hide";
            "is-readable-line-width"]} : gset string)).
Proof.
  split; [apply removeStyles_shrinks|].
  open_world w. destruct (lv l) as [vt cE vE hE gE eE] eqn:El.
  unfold removeStyles.
  run.
  all: rewrite ?classes_at_insert; repeat case_decide; simplify_eq.
  all: intros c Hin Hout.
  all: match goal with
       | |- ?x ∈ ?S => destruct (decide (x ∈ S)) as [|Hn]; [done|]
       end.
  all: exfalso; apply Hout; set_solver.
Qed.

(** X3. On a view with content and header elements whose elements carry
    none of the classes [removeStyles] takes away, and with the host's
    readable line length option off, [addStyles] followed by [removeStyles]
    returns and leaves every class list as it was. *)
Theorem addStyles_then_removeStyles_restores (w : World) (l : LeafId) :
  is_Some (contentEl (leaves w l)) -> is_Some (headerEl (leaves w l)) ->
  truthy (readableLineLength w) = false ->
  (forall el, classList w el ## exit_zen_classes w l el) ->
  let w' := exec (removeStyles l) (exec (addStyles l) w) in
  returns (addStyles l) w = true /\
  returns (removeStyles l) (exec (addStyles l) w) = true /\
  forall el, classList w' el = classList w el.
Proof.
  intros Hv Hh Hrll Hclean. cbv zeta.
  destruct (addStyles_spec l w) as (cl1 & n1 & o1 & E1 & H1).
  destruct (H1 Hv Hh) as [-> Hcl1].
  assert (exec (addStyles l) w = restyle cl1 n1 w) as -> by (unfold exec; by rewrite E1).
  destruct (removeStyles_spec l (restyle cl1 n1 w)) as (cl2 & n2 & o2 & E2 & _ & H2).
  destruct (H2 Hv Hh) as [-> Hcl2].
  unfold exec, returns. rewrite E1, E2. cbn [fst snd]. split; [done|]. split; [done|].
  intros el. cbn. rewrite Hcl2, exit_zen_classes_restyle. cbn. rewrite Hcl1.
  pose proof (Hclean el).
  assert (enter_zen_classes w l el ⊆ exit_zen_classes w l el).
  { intros c Hc. apply (enter_zen_classes_removed w l el c Hc). by right. }
  set_solver.
Qed.

Lemma addStyles_then_removeStyles_restores_witness :
  classList (exec (removeStyles 0) (exec (addStyles 0) (Sample.fresh 0))) 2%positive =
  classList (Sample.fresh 0) 2%positive.
Proof.
  pose proof (addStyles_then_removeStyles_restores (Sample.fresh 0) 0) as H.
  cbv zeta in H. destruct H as (_ & _ & H).
  - eexists; reflexivity.
  - eexists; reflexivity.
  - reflexivity.
  - intros el. rewrite fresh_has_no_classes. apply disjoint_empty_l.
  - apply H.
Defined.

(** X4. Running [removeStyles] a second time changes no class list (the
    exit path runs it twice: once in the command, once in the
    fullscreen-change closure). *)
Theorem removeStyles_idempotent (w : World) (l : LeafId) (el : Elem) :
  is_Some (contentEl (leaves w l)) -> is_Some (headerEl (leaves w l)) ->
  classList (exec (removeStyles l) (exec (removeStyles l) w)) el =
  classList (exec (removeStyles l) w) el.
Proof.
  intros Hv Hh.
  destruct (removeStyles_spec l w) as (cl1 & n1 & o1 & E1 & _ & H1).
  destruct (H1 Hv Hh) as [-> Hcl1].
  assert (exec (removeStyles l) w = restyle cl1 n1 w) as ->
    by (unfold exec; by rewrite E1).
  destruct (removeStyles_spec l (restyle cl1 n1 w)) as (cl2 & n2 & o2 & E2 & _ & H2).
  destruct (H2 Hv Hh) as [-> Hcl2].
  unfold exec. rewrite E2. cbn. rewrite Hcl2, exit_zen_classes_restyle. cbn.
  rewrite Hcl1. set_solver.
Qed.

Lemma removeStyles_idempotent_witness :
  classList (exec (removeStyles 0) (exec (removeStyles 0) (Sample.fresh 0))) 2%positive =
  classList (exec (removeStyles 0) (Sample.fresh 0)) 2%positive.
Proof.
  apply (removeStyles_idempotent (Sample.fresh 0) 0 2%positive);
    eexists; reflexivity.
Defined.

(** X5. Running [addStyles] a second time changes no class list. *)
Theorem addStyles_idempotent (w : World) (l : LeafId) (el : Elem) :
  is_Some (contentEl (leaves w l)) -> is_Some (headerEl (leaves w l)) ->
  classList (exec (addStyles l) (exec (addStyles l) w)) el =
  classList (exec (addStyles l) w) el.
Proof.
  intros Hv Hh.
  destruct (addStyles_spec l w) as (cl1 & n1 & o1 & E1 & H1).
  destruct (H1 Hv Hh) as [-> Hcl1].
  assert (exec (addStyles l) w = restyle cl1 n1 w) as ->
    by (unfold exec; by rewrite E1).
  destruct (addStyles_spec l (restyle cl1 n1 w)) as (cl2 & n2 & o2 & E2 & H2).
  destruct (H2 Hv Hh) as [-> Hcl2].
  unfold exec. rewrite E2. cbn. rewrite Hcl2, enter_zen_classes_restyle. cbn.
  rewrite Hcl1. set_solver.
Qed.

Lemma addStyles_idempotent_witness :
  classList (exec (addStyles 1) (exec (addStyles 1) (Sample.fresh 1))) 6%positive =
  classList (exec (addStyles 1) (Sample.fresh 1)) 6%positive.
Proof.
  apply (addStyles_idempotent (Sample.fresh 1) 1 6%positive);
    eexists; reflexivity.
Defined.

(** ** The fullscreen-change closure and the host *)

(** X6. The closure [fullscreenMode] installs does nothing while an element
    is fullscreen (so the event that follows entering is ignored).  With
    nothing fullscreen it runs [removeStyles] and then clears the flag: on a
    view with content and header elements it returns, the flag is cleared
    and every element has lost the exit-zen classes; and if it fails, the
    flag is as it was. *)
Theorem onFullscreenChange_behaviour (w : World) (l : LeafId) :
  (is_Some (fullscreenElement (document w)) ->
   onFullscreenChange l w = (w, Normal ())) /\
  (fullscreenElement (document w) = None ->
   is_Some (contentEl (leaves w l)) -> is_Some (headerEl (leaves w l)) ->
   returns (onFullscreenChange l) w = true /\
   isInZenMode (exec (onFullscreenChange l) w) = false /\
   forall el, classList (exec (onFullscreenChange l) w) el =
              classList w el ∖ exit_zen_classes w l el) /\
  (fullscreenElement (document w) = None ->
   returns (onFullscreenChange l) w = false ->
   isInZenMode (exec (onFullscreenChange l) w) = isInZenMode w).
Proof.
  unfold onFullscreenChange. open_world w. split; [|split].
  - intros [e ->]. by run.
  - intros -> Hv Hh. run_toggle.
    all: destruct Hrem as [Ho Hcl]; [exact Hv|exact Hh|]; try discriminate.
    repeat split. intros el. by rewrite Hcl.
  - intros ->. run_toggle; [discriminate|done].
Qed.

(** X7. Zen mode entered by the command and left from outside (the host
    ends fullscreen and delivers the event): the flag, set by entering, is
    cleared by the closure, and a class that entering gave to an element is
    gone, unless it is the readable-width class and the host's readable
    line length option is on. *)
Theorem leaving_fullscreen_from_outside (w : World) (l : LeafId) (c : Elem) :
  activeItemView w = Some l ->
  viewType (leaves w l) <> "empty" ->
  containerEl (leaves w l) = Some c ->
  is_Some (contentEl (leaves w l)) -> is_Some (headerEl (leaves w l)) ->
  fullscreenElement (document w) = None ->
  let w1 := toggle w in
  let w2 := host_leave_fullscreen w1 in
  isInZenMode w1 = true /\ fullscreenElement (document w1) = Some c /\
  isInZenMode w2 = false /\ fullscreenElement (document w2) = None /\
  forall el cls,
    cls ∈ classList w1 el -> cls ∉ classList w el ->
    cls <> readable_width \/ truthy (readableLineLength w) = false ->
    cls ∉ classList w2 el.
Proof.
  intros Hl Hty Hc Hv Hh Hfs. cbv zeta.
  destruct (toggle_enter w l c Hl Hty Hc Hv Hh Hfs) as (cl1 & rs1 & n1 & -> & Hcl1).
  split; [done|]. split; [done|].
  match goal with |- context [host_leave_fullscreen ?W] =>
    assert (isInZenMode (host_leave_fullscreen W) = false /\
            fullscreenElement (document (host_leave_fullscreen W)) = None /\
            forall el, classList (host_leave_fullscreen W) el =
                       classes_at cl1 el ∖ exit_zen_classes w l el)
      as (Hz & Hf & Hcl2)
  end.
  { unfold host_leave_fullscreen, dispatch_fullscreenchange. cbn.
    rewrite lookup_insert_eq. unfold onFullscreenChange.
    run_toggle.
    all: destruct Hrem as [Ho Hcl2]; [exact Hv|exact Hh|]; try discriminate.
    split; [done|]. split; [done|]. intros el. by rewrite Hcl2. }
  split; [done|]. split; [done|].
  intros el cls Hin Hout Hrw. cbn in Hin. rewrite Hcl1 in Hin.
  rewrite Hcl2, Hcl1.
  assert (cls ∈ enter_zen_classes w l el) as Hent by set_solver.
  pose proof (enter_zen_classes_removed w l el cls Hent Hrw) as Hex.
  set_solver.
Qed.

Lemma leaving_fullscreen_from_outside_witness :
  isInZenMode (host_leave_fullscreen (toggle (Sample.fresh 0))) = false.
Proof.
  pose proof (leaving_fullscreen_from_outside (Sample.fresh 0) 0 1%positive) as H.
  cbv zeta in H. destruct H as (_ & _ & H & _).
  - reflexivity.
  - discriminate.
  - reflexivity.
  - eexists; reflexivity.
  - eexists; reflexivity.
  - reflexivity.
  - exact H.
Defined.

(** X8. A call of [fullscreenMode] that gets past the guards, on a view
    with its three elements, leaves on the container the closure for the
    present leaf, in place of whatever was there, and touches the
    [onfullscreenchange] property of no other element. *)
Theorem fullscreenMode_installs_one_handler (w : World) (l : LeafId) (c : Elem) :
  activeItemView w = Some l ->
  viewType (leaves w l) <> "empty" ->
  containerEl (leaves w l) = Some c ->
  is_Some (contentEl (leaves w l)) -> is_Some (headerEl (leaves w l)) ->
  let w' := exec fullscreenMode w in
  onfullscreenchange (document w') !! c = Some l /\
  forall el, el <> c ->
    onfullscreenchange (document w') !! el = onfullscreenchange (document w) !! el.
Proof.
  intros Hl Hty Hc Hv Hh. cbv zeta.
  destruct (fullscreenElement (document w)) as [e|] eqn:Hfs.
  - destruct (fullscreenMode_exit w l c e Hl Hty Hc Hv Hh Hfs) as (cl1 & rs1 & n1 & E & _).
    unfold exec. rewrite E. cbn. split; [apply lookup_insert_eq|].
    intros el Hne. by apply lookup_insert_ne.
  - destruct (fullscreenMode_enter w l c Hl Hty Hc Hv Hh Hfs) as (cl1 & rs1 & n1 & E & _).
    unfold exec. rewrite E. cbn. split; [apply lookup_insert_eq|].
    intros el Hne. by apply lookup_insert_ne.
Qed.

Lemma fullscreenMode_installs_one_handler_witness :
  onfullscreenchange (document (exec fullscreenMode (Sample.fresh 0))) !! 1%positive =
  Some 0.
Proof.
  pose proof (fullscreenMode_installs_one_handler (Sample.fresh 0) 0 1%positive) as H.
  cbv zeta in H. destruct H as (H & _).
  - reflexivity.
  - discriminate.
  - reflexivity.
  - eexists; reflexivity.
  - eexists; reflexivity.
  - exact H.
Defined.

(** X9. The flag is set when the request is made, not when it is granted.
    If the host refuses the fullscreen request, the flag stays set with
    nothing fullscreen, and the next call of the command asks to enter
    again instead of leaving. *)
Theorem refused_request_leaves_flag_set (w : World) (l : LeafId) (c : Elem) :
  activeItemView w = Some l ->
  viewType (leaves w l) <> "empty" ->
  containerEl (leaves w l) = Some c ->
  is_Some (contentEl (leaves w l)) -> is_Some (headerEl (leaves w l)) ->
  fullscreenElement (document w) = None ->
  let w1 := host_refuse (exec fullscreenMode w) in
  let w2 := exec fullscreenMode w1 in
  isInZenMode w1 = true /\ fullscreenElement (document w1) = None /\
  pendingFs (document w1) = None /\
  isInZenMode w2 = true /\ pendingFs (document w2) = Some (ReqEnter c).
Proof.
  intros Hl Hty Hc Hv Hh Hfs. cbv zeta.
  destruct (fullscreenMode_enter w l c Hl Hty Hc Hv Hh Hfs) as (cl1 & rs1 & n1 & E & _).
  match type of E with _ = (?W, _) =>
    assert (exec fullscreenMode w = W) as -> by (unfold exec; by rewrite E) end.
  unfold host_refuse. cbn [set_fullscreen with_document document fullscreenElement
    classes rootStyle onfullscreenchange log with_isInZenMode with_toggleCalls
    settings isInZenMode stored leaves activeLeaf activeItemView activeEditor
    readableLineLength toggleCalls].
  split; [done|]. split; [done|]. split; [done|].
  match goal with |- context [exec fullscreenMode ?W] =>
    destruct (fullscreenMode_enter W l c) as (cl2 & rs2 & n2 & E2 & _); try done;
    unfold exec; rewrite E2 end.
  done.
Qed.

Lemma refused_request_leaves_flag_set_witness :
  isInZenMode (host_refuse (exec fullscreenMode (Sample.fresh 0))) = true.
Proof.
  pose proof (refused_request_leaves_flag_set (Sample.fresh 0) 0 1%positive) as H.
  cbv zeta in H. destruct H as (H & _).
  - reflexivity.
  - discriminate.
  - reflexivity.
  - eexists; reflexivity.
  - eexists; reflexivity.
  - reflexivity.
  - exact H.
Defined.

(** ** The auto-zen trigger, further *)



(** X11. The content test of the trigger, [getValue().trim().length > 0],
    passes exactly when the text holds a character that is neither white
    space nor a line terminator.  So when the preference is on, the flag is
    clear, the active view is not the empty placeholder and the editor
    holds such a character, the handler leaves the world [fullscreenMode]
    leaves, with the flag set on top if that call returned; and otherwise,
    in particular on a text of blanks and line ends only, it returns with
    the world untouched. *)
Theorem auto_zen_needs_visible_text (w : World) :
  let visible :=
    truthy (JS.get (settings w) "autoZenMode") = true /\
    isInZenMode w = false /\
    (exists l, activeLeaf w = Some l /\ viewType (leaves w l) <> "empty") /\
    (exists value c, activeEditor w = Some value /\ c ∈ value /\
       is_white_space c = false /\ is_line_terminator c = false) in
  (visible ->
   handleEditorChange w =
     match fullscreenMode w with
     | (w1, Normal _) => (with_isInZenMode true w1, Normal ())
     | (w1, Throws e) => (w1, Throws e)
     end) /\
  (~ visible -> handleEditorChange w = (w, Normal ())) /\
  (forall value,
     activeEditor w = Some value ->
     (forall c, c ∈ value -> is_white_space c = true \/ is_line_terminator c = true) ->
     handleEditorChange w = (w, Normal ())).
Proof.
  cbv zeta.
  assert (auto_zen_conditions w <->
    truthy (JS.get (settings w) "autoZenMode") = true /\
    isInZenMode w = false /\
    (exists l, activeLeaf w = Some l /\ viewType (leaves w l) <> "empty") /\
    (exists value c, activeEditor w = Some value /\ c ∈ value /\
       is_white_space c = false /\ is_line_terminator c = false)) as Hiff.
  { unfold auto_zen_conditions. split.
    - intros (? & ? & ? & value & ? & (c & ? & Hc)%trim_nonempty).
      apply orb_false_iff in Hc as [? ?]. eauto 10.
    - intros (? & ? & ? & value & c & ? & ? & ? & ?).
      repeat split; try done. exists value. split; [done|].
      apply trim_nonempty. exists c. split; [done|]. unfold trimmable.
      apply orb_false_iff. done. }
  split; [|split].
  - intros Hvis. apply handleEditorChange_fires. by apply Hiff.
  - intros Hno. apply handleEditorChange_idle. intros Hyes. apply Hno.
    by apply Hiff.
  - intros value Hed Hblank. apply handleEditorChange_idle. intros Hyes.
    apply Hiff in Hyes as (_ & _ & _ & value' & c & Hed' & Hin & Hws & Hlt).
    rewrite Hed in Hed'. injection Hed' as <-.
    destruct (Hblank c Hin); congruence.
Qed.

(** A note that holds two blanks and a line feed does not trigger; the same
    note with a letter does. *)
Lemma auto_zen_needs_visible_text_witness :
  handleEditorChange
    {| settings := settings (Sample.autozen (Sample.fresh 0));
       isInZenMode := false; stored := None;
       leaves := Sample.workspace_leaves;
       activeLeaf := Some 0; activeItemView := Some 0;
       activeEditor := Some [32; 32; 10]%N;
       readableLineLength := VBool false;
       document := Sample.blank_document; toggleCalls := 0 |} =
    ({| settings := settings (Sample.autozen (Sample.fresh 0));
        isInZenMode := false; stored := None;
        leaves := Sample.workspace_leaves;
        activeLeaf := Some 0; activeItemView := Some 0;
        activeEditor := Some [32; 32; 10]%N;
        readableLineLength := VBool false;
        document := Sample.blank_document; toggleCalls := 0 |}, Normal ()) /\
  handleEditorChange (Sample.autozen (Sample.fresh 0)) =
    (with_isInZenMode true (exec fullscreenMode (Sample.autozen (Sample.fresh 0))),
     Normal ()).
Proof.
  split.
  - match goal with |- handleEditorChange ?W = _ =>
      pose proof (auto_zen_needs_visible_text W) as H end.
    cbv zeta in H. destruct H as (_ & _ & H).
    apply (H [32; 32; 10]%N); [reflexivity|].
    intros c Hc.
    repeat (apply elem_of_cons in Hc as [->|Hc]; [vm_compute; auto|]).
    by apply elem_of_nil in Hc.
  - pose proof (auto_zen_needs_visible_text (Sample.autozen (Sample.fresh 0))) as H.
    cbv zeta in H. destruct H as (H & _ & _). rewrite H; [vm_compute; reflexivity|].
    split; [reflexivity|]. split; [reflexivity|].
    split; [exists 0; split; [reflexivity|discriminate]|].
    exists [104; 105]%N, 104%N.
    split; [reflexivity|]. split; [left|]. split; reflexivity.
Defined.

(** ** Settings and their persistence *)

Lemma handleEditorChange_frame w :
  exists d b,
    exec handleEditorChange w =
      with_document d (with_isInZenMode b
        (with_toggleCalls (toggleCalls (exec handleEditorChange w)) w)).
Proof.
  destruct (auto_zen_conditions_decided w) as [Hyes|Hno].
  - unfold exec. rewrite (handleEditorChange_acts w Hyes).
    destruct (fullscreenMode_frame w) as (d & b & o & E).
    rewrite (M_bind_run _ _ _ _ _ _ _ E). destruct o; cbn; eexists _, _; reflexivity.
  - unfold exec. rewrite (handleEditorChange_idle w Hno). cbn.
    exists (document w), (isInZenMode w). by destruct w.
Qed.

Lemma onFullscreenChange_frame l w :
  exists d b,
    exec (onFullscreenChange l) w = with_document d (with_isInZenMode b w).
Proof.
  unfold onFullscreenChange. open_world w.
  run_toggle; eexists _, _; reflexivity.
Qed.

(** X12. The two halves of the plugin keep apart.  The command, the
    trigger and the fullscreen-change closure never write the settings or
    the stored data; loading, saving and changing a setting never touch the
    flag or the document, so a changed preference shows only at the next
    toggle. *)
Theorem handlers_keep_to_their_part (h : Handler) (w : World) :
  let w' := exec (handle h) w in
  match h with
  | ZenCommand | EditorChange | FullscreenChange _ =>
      settings w' = settings w /\ stored w' = stored w
  | OnLoad | SaveSettings | SettingChanged _ _ =>
      isInZenMode w' = isInZenMode w /\ document w' = document w
  end.
Proof.
  cbv zeta. destruct h as [| |k v| | |l]; cbn [handle]; try done.
  - destruct (fullscreenMode_frame w) as (d & b & o & E).
    unfold exec. by rewrite E.
  - destruct (handleEditorChange_frame w) as (d & b & ->). done.
  - destruct (onFullscreenChange_frame l w) as (d & b & ->). done.
Qed.

(** X13. The settings hold every documented field after [loadSettings],
    whatever was stored, and no handler takes a field away. *)
Theorem settings_stay_populated (h : Handler) (w : World) :
  h = OnLoad \/ populated (settings w) ->
  populated (settings (exec (handle h) w)).
Proof.
  intros Hpre.
  destruct h as [| |k v| | |l].
  - cbn. intros k Hk. destruct (stored w) as [data|].
    + rewrite assign_lookup. cbn [assign]. rewrite (right_id_L ∅ (∪)).
      by destruct (data !! k).
    + cbn [assign]. by rewrite (right_id_L ∅ (∪)).
  - destruct Hpre as [?|Hp]; [done|]. exact Hp.
  - destruct Hpre as [?|Hp]; [done|]. cbn. intros k' Hk.
    apply lookup_insert_is_Some'. right. by apply Hp.
  - destruct Hpre as [?|Hp]; [done|]. cbn [handle].
    destruct (fullscreenMode_frame w) as (d & b & o & E).
    unfold exec. rewrite E. exact Hp.
  - destruct Hpre as [?|Hp]; [done|]. cbn [handle].
    destruct (handleEditorChange_frame w) as (d & b & ->). exact Hp.
  - destruct Hpre as [?|Hp]; [done|]. cbn [handle].
    destruct (onFullscreenChange_frame l w) as (d & b & ->). exact Hp.
Qed.

Lemma settings_stay_populated_witness :
  populated (settings (exec (handle OnLoad) (Sample.fresh 0))).
Proof.
  apply (settings_stay_populated OnLoad (Sample.fresh 0)). left. reflexivity.
Defined.

(** X14. Saving and loading again gives back the settings as they were,
    when they hold every documented field and only values that survive
    JSON (no [undefined], [NaN] or infinity); what is stored is then the
    settings themselves. *)
Theorem save_then_load_restores_settings (w : World) :
  populated (settings w) -> json_stable (settings w) ->
  settings (exec loadSettings (exec saveSettings w)) = settings w /\
  stored (exec saveSettings w) = Some (settings w).
Proof.
  intros Hp Hs.
  assert (json_roundtrip (settings w) = settings w) as Hrt.
  { apply map_eq. intros k. unfold json_roundtrip. rewrite lookup_omap.
    destruct (settings w !! k) as [v|] eqn:Hk; cbn; [by apply (Hs k)|done]. }
  cbn. rewrite Hrt. split; [|done].
  apply map_eq. intros k. rewrite (right_id_L ∅ (∪)), lookup_union.
  destruct (settings w !! k) as [v|] eqn:Hk.
  { by destruct (DEFAULT_SETTINGS !! k). }
  destruct (DEFAULT_SETTINGS !! k) as [d|] eqn:Hd; [|done].
  destruct (Hp k) as [v Hv]; [by rewrite Hd|]. congruence.
Qed.

Lemma save_then_load_restores_settings_witness :
  settings (exec loadSettings (exec saveSettings (Sample.fresh 0))) =
  settings (Sample.fresh 0).
Proof.
  apply (save_then_load_restores_settings (Sample.fresh 0)).
  - intros k Hk. exact Hk.
  - intros k v Hk. cbn in Hk. unfold DEFAULT_SETTINGS in Hk.
    repeat (apply lookup_insert_Some in Hk as [[_ <-]|[_ Hk]]; [reflexivity|]).
    by rewrite lookup_empty in Hk.
Defined.
